(** * Verification of the schema utilities of dart-sql-generator

    Shallow embedding of [src/core/database.py]: the SQL DDL extractor
    [parse_sql_schema], the loader [load_schema_from_file], the formatter
    [format_schema_for_prompt] and the validator [validate_schema], and of
    their callers in [src/sql_generator.py] ([improve_prompt],
    [generate_sql_from_prompt], [pipeline_generate_sql]).

    Text is modelled as Rocq [string]s whose characters are read as the
    code points U+0000..U+00FF (Latin-1).  The character classes [\s] and
    [\w] of Python's [re] (Unicode patterns), [str.strip] and [str.split]
    are given exactly on that range. *)

From Stdlib Require Import String Ascii List ZArith Lia Bool.
From Stdlib Require Import Numbers.DecimalString.
Import ListNotations.
Open Scope bool_scope.
Open Scope string_scope.

(* ------------------------------------------------------------------ *)
(** ** Characters *)

Definition code (c : ascii) : nat := nat_of_ascii c.

Definition between (lo hi : nat) (c : ascii) : bool :=
  Nat.leb lo (code c) && Nat.leb (code c) hi.

(** [str.isspace] / regex [\s] on U+0000..U+00FF. *)
Definition is_space (c : ascii) : bool :=
  between 9 13 c || between 28 32 c || Nat.eqb (code c) 133 || Nat.eqb (code c) 160.

(** Regex [\w] (alphanumeric or underscore) on U+0000..U+00FF. *)
Definition is_word (c : ascii) : bool :=
  between 48 57 c || between 65 90 c || Nat.eqb (code c) 95 || between 97 122 c
  || Nat.eqb (code c) 170 || between 178 179 c || Nat.eqb (code c) 181
  || between 185 186 c || between 188 190 c || between 192 214 c
  || between 216 246 c || between 248 255 c.

Definition is_ascii_letter (c : ascii) : bool :=
  between 65 90 c || between 97 122 c.

(** [str.upper] restricted to what matters for the prefix tests of the
    code: ASCII letters are upper-cased; no other character of the range
    upper-cases to an ASCII letter other than U+00DF, whose upper case
    "SS" never occurs in the tested prefixes. *)
Definition upper_char (c : ascii) : ascii :=
  if between 97 122 c then ascii_of_nat (code c - 32) else c.

Fixpoint py_upper (s : string) : string :=
  match s with
  | EmptyString => EmptyString
  | String c t => String (upper_char c) (py_upper t)
  end.

(** A pattern character under [re.IGNORECASE]: letters compare up to
    ASCII case, any other character literally. *)
Definition lit_eq (p d : ascii) : bool :=
  if is_ascii_letter p then Ascii.eqb (upper_char p) (upper_char d)
  else Ascii.eqb p d.

(* ------------------------------------------------------------------ *)
(** ** String helpers *)

(** [s.startswith(p)]. *)
Fixpoint startswith (s p : string) : bool :=
  match p, s with
  | EmptyString, _ => true
  | String a p', String b s' => Ascii.eqb a b && startswith s' p'
  | String _ _, EmptyString => false
  end.

Fixpoint contains (s p : string) : bool :=
  startswith s p ||
  match s with
  | EmptyString => false
  | String _ t => contains t p
  end.

Fixpoint str_take (n : nat) (s : string) : string :=
  match n, s with
  | O, _ => EmptyString
  | S k, String c t => String c (str_take k t)
  | S _, EmptyString => EmptyString
  end.

Fixpoint str_drop (n : nat) (s : string) : string :=
  match n, s with
  | O, _ => s
  | S k, String _ t => str_drop k t
  | S _, EmptyString => EmptyString
  end.

(** [str.lstrip()], [str.rstrip()] and [str.strip()]. *)
Fixpoint lstrip (s : string) : string :=
  match s with
  | EmptyString => EmptyString
  | String c t => if is_space c then lstrip t else s
  end.

Fixpoint rstrip (s : string) : string :=
  match s with
  | EmptyString => EmptyString
  | String c t =>
      match rstrip t with
      | EmptyString => if is_space c then EmptyString else String c EmptyString
      | r => String c r
      end
  end.

Definition py_strip (s : string) : string := rstrip (lstrip s).

(** [s.split(sep)] for a one-character separator. *)
Fixpoint split_sep (sep : ascii) (s : string) : list string :=
  match s with
  | EmptyString => [EmptyString]
  | String c t =>
      if Ascii.eqb c sep then EmptyString :: split_sep sep t
      else match split_sep sep t with
           | x :: xs => String c x :: xs
           | [] => [String c EmptyString]
           end
  end.

(** The first run of non-whitespace characters and what follows it. *)
Fixpoint span_nonspace (s : string) : string * string :=
  match s with
  | EmptyString => (EmptyString, EmptyString)
  | String c t =>
      if is_space c then (EmptyString, s)
      else let (w, r) := span_nonspace t in (String c w, r)
  end.

(** [s.split(None, 1)], following CPython's [split_whitespace] with
    [maxcount = 1]: skip leading whitespace, take one word, skip the
    whitespace after it, and keep the remainder (if any) as one piece. *)
Definition split_ws1 (s : string) : list string :=
  match lstrip s with
  | EmptyString => []
  | s1 =>
      let (w, r) := span_nonspace s1 in
      match lstrip r with
      | EmptyString => [w]
      | r' => [w; r']
      end
  end.

(* ------------------------------------------------------------------ *)
(** ** The regular expressions of the extractor

    The three patterns of [parse_sql_schema] are concatenations of
    literal characters and single repeated classes ([\s+], [\s*], [\w+],
    [.*?] under [re.DOTALL]), some of them captured.  [match_here]
    implements Python's backtracking semantics for that fragment: a
    greedy repetition tries its longest run first and then shorter ones,
    a lazy one tries the shortest first. *)

Inductive atom :=
| Lit (c : ascii)
| Rep (cls : ascii -> bool) (min : nat) (lazy : bool).

Record item := { it_atom : atom; it_group : bool }.

Fixpoint run_len (cls : ascii -> bool) (s : string) : nat :=
  match s with
  | EmptyString => 0
  | String c t => if cls c then S (run_len cls t) else 0
  end.

Fixpoint first_some {A B : Type} (f : A -> option B) (l : list A) : option B :=
  match l with
  | [] => None
  | x :: xs => match f x with Some y => Some y | None => first_some f xs end
  end.

Definition add_group (g : bool) (x : string)
    (r : option (list string * string)) : option (list string * string) :=
  if g then option_map (fun '(gs, rest) => (x :: gs, rest)) r else r.

(** Match [p] at the start of [s]: the captured groups and the rest. *)
Fixpoint match_here (p : list item) (s : string)
    : option (list string * string) :=
  match p with
  | [] => Some ([], s)
  | it :: p' =>
      match it_atom it with
      | Lit c =>
          match s with
          | String d t =>
              if lit_eq c d
              then add_group (it_group it) (String d EmptyString) (match_here p' t)
              else None
          | EmptyString => None
          end
      | Rep cls mn lz =>
          let ks := seq mn (S (run_len cls s) - mn) in
          first_some
            (fun k => add_group (it_group it) (str_take k s)
                        (match_here p' (str_drop k s)))
            (if lz then ks else rev ks)
      end
  end.

(** [re.search(p, s)]: the groups of the leftmost match. *)
Fixpoint re_search (p : list item) (s : string) : option (list string) :=
  match match_here p s with
  | Some (gs, _) => Some gs
  | None =>
      match s with
      | EmptyString => None
      | String _ t => re_search p t
      end
  end.

(** [re.finditer(p, s)]: the groups of the successive non-overlapping
    matches; after a match the scan resumes where it ended ([skip] counts
    the characters still to be passed over).  None of the patterns below
    matches the empty string. *)
Fixpoint finditer_from (p : list item) (s : string) (skip : nat)
    : list (list string) :=
  match skip, s with
  | S _, EmptyString => []
  | S k, String _ t => finditer_from p t k
  | O, _ =>
      match match_here p s with
      | Some (gs, rest) =>
          gs :: match s with
                | EmptyString => []
                | String _ t => finditer_from p t (String.length s - String.length rest - 1)
                end
      | None =>
          match s with
          | EmptyString => []
          | String _ t => finditer_from p t 0
          end
      end
  end.

Definition finditer (p : list item) (s : string) : list (list string) :=
  finditer_from p s 0.

Fixpoint lits (s : string) : list item :=
  match s with
  | EmptyString => []
  | String c t => {| it_atom := Lit c; it_group := false |} :: lits t
  end.

Definition ws_plus : item := {| it_atom := Rep is_space 1 false; it_group := false |}.
Definition ws_star : item := {| it_atom := Rep is_space 0 false; it_group := false |}.
Definition word_group : item := {| it_atom := Rep is_word 1 false; it_group := true |}.
Definition any_lazy_group : item :=
  {| it_atom := Rep (fun _ => true) 0 true; it_group := true |}.

(** [r'CREATE\s+TABLE\s+(\w+)\s*\((.*?)\);'], IGNORECASE | DOTALL. *)
Definition create_table_pattern : list item :=
  (lits "CREATE" ++ [ws_plus] ++ lits "TABLE" ++ [ws_plus; word_group; ws_star]
  ++ lits "(" ++ [any_lazy_group] ++ lits ");")%list.

(** [r'PRIMARY\s+KEY\s*\((\w+)\)'], IGNORECASE. *)
Definition pk_pattern : list item :=
  (lits "PRIMARY" ++ [ws_plus] ++ lits "KEY" ++ [ws_star] ++ lits "("
  ++ [word_group] ++ lits ")")%list.

(** [r'FOREIGN\s+KEY\s*\((\w+)\)\s+REFERENCES\s+(\w+)\s*\((\w+)\)'],
    IGNORECASE. *)
Definition fk_pattern : list item :=
  (lits "FOREIGN" ++ [ws_plus] ++ lits "KEY" ++ [ws_star] ++ lits "("
  ++ [word_group] ++ lits ")" ++ [ws_plus] ++ lits "REFERENCES"
  ++ [ws_plus; word_group; ws_star] ++ lits "(" ++ [word_group] ++ lits ")")%list.

(* ------------------------------------------------------------------ *)
(** ** [parse_sql_schema]

    A table entry is the dictionary literal
    [{"columns": {}, "primary_key": None, "foreign_keys": []}], whose three
    fields the code only ever updates by their own keys; it is modelled as
    a record.  Dictionaries keyed by names are association lists in
    insertion order; [dict_set] is Python's [d[k] = v] (an existing key
    keeps its position, a new key goes last). *)

Record table_info := {
  columns : list (string * string);
  primary_key : option string;
  foreign_keys : list string
}.

Definition empty_table : table_info :=
  {| columns := []; primary_key := None; foreign_keys := [] |}.

Fixpoint dict_set {V : Type} (k : string) (v : V) (d : list (string * V))
    : list (string * V) :=
  match d with
  | [] => [(k, v)]
  | (k', v') :: t => if String.eqb k k' then (k', v) :: t else (k', v') :: dict_set k v t
  end.

Definition set_column (ti : table_info) (name ty : string) : table_info :=
  {| columns := dict_set name ty (columns ti);
     primary_key := primary_key ti;
     foreign_keys := foreign_keys ti |}.

Definition set_primary_key (ti : table_info) (k : string) : table_info :=
  {| columns := columns ti; primary_key := Some k; foreign_keys := foreign_keys ti |}.

Definition add_foreign_key (ti : table_info) (fk : string) : table_info :=
  {| columns := columns ti; primary_key := primary_key ti;
     foreign_keys := (foreign_keys ti ++ [fk])%list |}.

Definition is_pk_clause (col_def : string) : bool :=
  startswith (py_upper col_def) "PRIMARY KEY".

Definition is_fk_clause (col_def : string) : bool :=
  startswith (py_upper col_def) "FOREIGN KEY".

Definition default_type : string := "VARCHAR(255)".

(** The body of the [for col_def in column_definitions] loop. *)
Definition process_clause (ti : table_info) (col : string) : table_info :=
  let col_def := py_strip col in
  if is_pk_clause col_def then
    match re_search pk_pattern col_def with
    | Some (k :: _) => set_primary_key ti k
    | _ => ti
    end
  else if is_fk_clause col_def then
    match re_search fk_pattern col_def with
    | Some (a :: b :: c :: _) => add_foreign_key ti (a ++ " -> " ++ b ++ "." ++ c)
    | _ => ti
    end
  else
    match split_ws1 col_def with
    | col_name :: col_type :: _ => set_column ti col_name col_type
    | [n] => if String.eqb n EmptyString then ti else set_column ti n default_type
    | [] => ti
    end.

Definition process_clauses (ti : table_info) (cs : list string) : table_info :=
  fold_left process_clause cs ti.

(** [column_definitions = [col.strip() for col in columns_str.split(',')]]
    and the loop over them, starting from a fresh entry. *)
Definition parse_table (columns_str : string) : table_info :=
  process_clauses empty_table (map py_strip (split_sep "," columns_str)).

Definition schema := list (string * table_info).

Definition parse_sql_schema (sql_statements : string) : schema :=
  fold_left
    (fun sch gs =>
       match gs with
       | table_name :: columns_str :: _ =>
           dict_set table_name (parse_table columns_str) sch
       | _ => sch
       end)
    (finditer create_table_pattern sql_statements) [].

(* ------------------------------------------------------------------ *)
(** ** Python values

    The values a schema may hold after [json.load] or [yaml.safe_load]
    (floats and the rarer YAML types left out).  A dict is the list of its
    items in insertion order. *)

#[local] Set Warnings "-register-all".
Inductive pyval :=
| PNone
| PBool (b : bool)
| PInt (z : Z)
| PStr (s : string)
| PList (l : list pyval)
| PDict (d : list (pyval * pyval)).

Definition py_of_table (ti : table_info) : pyval :=
  PDict [(PStr "columns",
          PDict (map (fun '(n, t) => (PStr n, PStr t)) (columns ti)));
         (PStr "primary_key",
          match primary_key ti with Some k => PStr k | None => PNone end);
         (PStr "foreign_keys", PList (map PStr (foreign_keys ti)))].

Definition py_of_schema (sch : schema) : pyval :=
  PDict (map (fun '(n, ti) => (PStr n, py_of_table ti)) sch).

(** Truthiness, as in [if x:]. *)
Definition truthy (v : pyval) : bool :=
  match v with
  | PNone => false
  | PBool b => b
  | PInt z => negb (Z.eqb z 0)
  | PStr s => negb (String.eqb s EmptyString)
  | PList l => negb (Nat.eqb (List.length l) 0)
  | PDict d => negb (Nat.eqb (List.length d) 0)
  end.

(** [k in d] and [d[k]] for a string key [k]. *)
Fixpoint py_lookup (k : string) (d : list (pyval * pyval)) : option pyval :=
  match d with
  | [] => None
  | (PStr k', v) :: t => if String.eqb k k' then Some v else py_lookup k t
  | _ :: t => py_lookup k t
  end.

Definition nl : string := String "010"%char EmptyString.
Definition dquote : ascii := "034"%char.
Definition squote : ascii := "039"%char.
Definition backslash : ascii := "092"%char.

Definition hex_digit (n : nat) : ascii :=
  match String.get n "0123456789abcdef" with Some c => c | None => "0"%char end.

(** Characters [str.isprintable] rejects on U+0000..U+00FF. *)
Definition nonprintable (c : ascii) : bool :=
  between 0 31 c || between 127 160 c || Nat.eqb (code c) 173.

Definition repr_char (q c : ascii) : string :=
  if Ascii.eqb c backslash then String backslash (String backslash EmptyString)
  else if Ascii.eqb c q then String backslash (String q EmptyString)
  else if Nat.eqb (code c) 9 then String backslash "t"
  else if Nat.eqb (code c) 10 then String backslash "n"
  else if Nat.eqb (code c) 13 then String backslash "r"
  else if nonprintable c then
    String backslash (String "x"%char
      (String (hex_digit (code c / 16)) (String (hex_digit (code c mod 16)) EmptyString)))
  else String c EmptyString.

Fixpoint repr_body (q : ascii) (s : string) : string :=
  match s with
  | EmptyString => EmptyString
  | String c t => repr_char q c ++ repr_body q t
  end.

(** [repr] of a string: single quotes unless the text holds a single
    quote and no double quote. *)
Definition str_repr (s : string) : string :=
  let q := if contains s (String squote EmptyString)
              && negb (contains s (String dquote EmptyString))
           then dquote else squote in
  String q (repr_body q s ++ String q EmptyString).

Fixpoint join (sep : string) (l : list string) : string :=
  match l with
  | [] => EmptyString
  | [x] => x
  | x :: xs => x ++ sep ++ join sep xs
  end.

Definition z_to_dec (z : Z) : string := NilEmpty.string_of_int (Z.to_int z).

(** [str(v)] ([top = true]) and [repr(v)] ([top = false]). *)
Fixpoint py_fmt (top : bool) (v : pyval) : string :=
  match v with
  | PNone => "None"
  | PBool true => "True"
  | PBool false => "False"
  | PInt z => z_to_dec z
  | PStr s => if top then s else str_repr s
  | PList l =>
      "[" ++ join ", " ((fix go (l : list pyval) : list string :=
                           match l with
                           | [] => []
                           | x :: xs => py_fmt false x :: go xs
                           end) l) ++ "]"
  | PDict d =>
      "{" ++ join ", " ((fix go (d : list (pyval * pyval)) : list string :=
                           match d with
                           | [] => []
                           | (k, x) :: xs =>
                               (py_fmt false k ++ ": " ++ py_fmt false x) :: go xs
                           end) d) ++ "}"
  end.

Definition py_str : pyval -> string := py_fmt true.

(* ------------------------------------------------------------------ *)
(** ** [format_schema_for_prompt] and [validate_schema] *)

(** The Python exceptions the formatter can raise. *)
Inductive py_exc :=
| AttributeError   (* [x.items()] on a value without [items] *)
| TypeError.       (* [for _ in x] on a value that is not iterable *)

Inductive result (A : Type) :=
| Ok (a : A)
| Raise (e : py_exc).
Arguments Ok {A} a.
Arguments Raise {A} e.

Definition bind {A B : Type} (r : result A) (f : A -> result B) : result B :=
  match r with Ok a => f a | Raise e => Raise e end.

Notation "x <- r ;; f" := (bind r (fun x => f))
  (at level 61, r at next level, right associativity).

(** [x.items()]: only dicts have it. *)
Definition py_items (v : pyval) : result (list (pyval * pyval)) :=
  match v with
  | PDict d => Ok d
  | _ => Raise AttributeError
  end.

(** [for x in v]: lists yield their elements, dicts their keys, strings
    their characters; [None], booleans and integers are not iterable. *)
Definition py_iter (v : pyval) : result (list pyval) :=
  match v with
  | PList l => Ok l
  | PDict d => Ok (map fst d)
  | PStr s => Ok (map (fun c => PStr (String c EmptyString)) (list_ascii_of_string s))
  | _ => Raise TypeError
  end.

(** The [if isinstance(table_info, dict):] block, appending to
    [formatted]. *)
Definition format_table_info (formatted : string) (table_info : pyval)
    : result string :=
  match table_info with
  | PDict d =>
      f1 <- match py_lookup "columns" d with
            | Some cols =>
                items <- py_items cols ;;
                Ok (fold_left
                      (fun acc '(col_name, col_type) =>
                         acc ++ "  - " ++ py_str col_name ++ ": " ++ py_str col_type ++ nl)
                      items (formatted ++ "Columns:" ++ nl))
            | None => Ok formatted
            end ;;
      let f2 := match py_lookup "primary_key" d with
                | Some pk => if truthy pk then f1 ++ "Primary Key: " ++ py_str pk ++ nl else f1
                | None => f1
                end in
      match py_lookup "foreign_keys" d with
      | Some fks =>
          if truthy fks then
            l <- py_iter fks ;;
            Ok (fold_left (fun acc fk => acc ++ "  - " ++ py_str fk ++ nl)
                          l (f2 ++ "Foreign Keys:" ++ nl))
          else Ok f2
      | None => Ok f2
      end
  | _ => Ok formatted
  end.

Fixpoint format_tables (formatted : string) (items : list (pyval * pyval))
    : result string :=
  match items with
  | [] => Ok formatted
  | (table_name, table_info) :: rest =>
      f <- format_table_info (formatted ++ "Table: " ++ py_str table_name ++ nl) table_info ;;
      format_tables (f ++ nl) rest
  end.

Definition format_header : string := "DATABASE SCHEMA:" ++ nl ++ nl.

Definition format_schema_for_prompt (schema : pyval) : result string :=
  match schema with
  | PDict d => format_tables format_header d
  | _ => Ok format_header
  end.

Definition validate_schema (schema : pyval) : bool :=
  match schema with
  | PDict d => if Nat.eqb (List.length d) 0 then false else true
  | _ => false
  end.

(* ------------------------------------------------------------------ *)
(** ** [load_schema_from_file]

    The path is taken as the string of [Path(file_path)] (pathlib's
    normal form).  The file system and the JSON and YAML decoders are
    parameters; the loader's effects are recorded in a trace so that the
    order of checks, reads and decodes is visible. *)

Definition lower_char (c : ascii) : ascii :=
  if between 65 90 c then ascii_of_nat (code c + 32) else c.

Fixpoint py_lower (s : string) : string :=
  match s with
  | EmptyString => EmptyString
  | String c t => String (lower_char c) (py_lower t)
  end.

(** [PurePath.name]: the last component. *)
Definition path_name (p : string) : string :=
  last (split_sep "/" p) EmptyString.

(** [name.rfind('.')]. *)
Fixpoint rfind_dot (s : string) : option nat :=
  match s with
  | EmptyString => None
  | String c t =>
      match rfind_dot t with
      | Some i => Some (S i)
      | None => if Ascii.eqb c "."%char then Some 0 else None
      end
  end.

(** [PurePath.suffix]: [name[i:]] when [0 < i < len(name) - 1]. *)
Definition path_suffix (p : string) : string :=
  let name := path_name p in
  match rfind_dot name with
  | Some i =>
      if Nat.ltb 0 i && Nat.ltb i (String.length name - 1)
      then str_drop i name else EmptyString
  | None => EmptyString
  end.

Inductive event :=
| CheckExists (path : string)
| OpenRead (path : string)
| JsonDecode
| YamlDecode
| SqlParse.

Inductive load_error :=
| FileNotFoundError (msg : string)
| ValueError (msg : string)
| ReadError (msg : string)      (* raised by [open] / [f.read()] *)
| DecodeError (msg : string).   (* raised by [json.load] / [yaml.safe_load] *)

Section Loader.

Variable path_exists : string -> bool.
Variable read_text : string -> string + string.       (* error message or contents *)
Variable json_load : string -> string + pyval.
Variable yaml_safe_load : string -> string + pyval.

Definition read_and (file_path : string) (ev : event)
    (decode : string -> string + pyval) : (load_error + pyval) * list event :=
  match read_text file_path with
  | inl e => (inl (ReadError e), [CheckExists file_path; OpenRead file_path])
  | inr txt =>
      (match decode txt with
       | inl e => inl (DecodeError e)
       | inr v => inr v
       end, [CheckExists file_path; OpenRead file_path; ev])
  end.

Definition load_schema_from_file (file_path : string)
    : (load_error + pyval) * list event :=
  if negb (path_exists file_path) then
    (inl (FileNotFoundError ("Schema file not found: " ++ file_path)),
     [CheckExists file_path])
  else
    let sfx := py_lower (path_suffix file_path) in
    if String.eqb sfx ".json" then read_and file_path JsonDecode json_load
    else if String.eqb sfx ".yaml" || String.eqb sfx ".yml" then
      read_and file_path YamlDecode yaml_safe_load
    else if String.eqb sfx ".sql" then
      read_and file_path SqlParse
        (fun sql_content => inr (py_of_schema (parse_sql_schema sql_content)))
    else
      (inl (ValueError ("Unsupported file format: " ++ path_suffix file_path)),
       [CheckExists file_path]).

End Loader.

(* ------------------------------------------------------------------ *)
(** ** The callers: [src/sql_generator.py]

    [improve_prompt] and [generate_sql_from_prompt] put the formatted
    schema into the system message of a chat completion request;
    [pipeline_generate_sql] optionally loads the schema from a file and
    chains the two requests.  The chat API is a parameter [chat]: given
    the system and user messages it yields [Some] content (the text of
    [response.choices[0].message.content]) or [None] when the request, or
    reading a string content from its response, raises.  Every exception
    inside the [try] blocks is turned into [RuntimeError] with the
    function's fixed message; the loader's exceptions propagate as they
    are.  Logging and the request id only feed the log and are left out. *)

(** The exceptions [pipeline_generate_sql] can end with. *)
Inductive pipe_error :=
| LoadFailed (e : load_error)
| RuntimeError (msg : string).

(** The loader's steps and the chat completion requests, in order. *)
Inductive pipe_event :=
| LoadStep (e : event)
| ChatCompletion (system user : string).

(** [schema_context = ""; if schema and validate_schema(schema):
    schema_context = "\n\n" + format_schema_for_prompt(schema)]. *)
Definition schema_context (schema : pyval) : result string :=
  if truthy schema && validate_schema schema then
    f <- format_schema_for_prompt schema ;; Ok (nl ++ nl ++ f)
  else Ok "".

Definition improve_system_message : string :=
  "You are a database-aware question rewriting assistant. Your job: "
  ++ "given a user natural language question + a brief description of the database "
  ++ "schema and several example rows from relevant tables, rewrite the user's question "
  ++ "to be unambiguous and directly grounded in the database content. Preserve intent, "
  ++ "but replace or expand vague terms with the exact table/column values or identifiers "
  ++ "found in the provided sample rows. If multiple plausible mappings exist, list them and pick the best one as the primary rewrite.".

Definition generate_system_message : string :=
  "You are a Text-to-SQL generator. Use the schema and the rewritten "
  ++ "question to produce a single valid SQL query, no explanations.".

Section Generator.

Variable path_exists : string -> bool.
Variable read_text : string -> string + string.
Variable json_load : string -> string + pyval.
Variable yaml_safe_load : string -> string + pyval.
Variable chat : string -> string -> option string.

Definition improve_prompt (original_prompt : string) (schema : pyval)
    : (pipe_error + string) * list pipe_event :=
  match schema_context schema with
  | Raise _ => (inl (RuntimeError "Erro ao melhorar prompt."), [])
  | Ok schema_ctx =>
      let system_message :=
        if String.eqb schema_ctx "" then improve_system_message
        else improve_system_message ++ schema_ctx in
      (match chat system_message original_prompt with
       | Some content => inr (py_strip content)
       | None => inl (RuntimeError "Erro ao melhorar prompt.")
       end, [ChatCompletion system_message original_prompt])
  end.

Definition generate_sql_from_prompt (prompt : string) (schema : pyval)
    : (pipe_error + string) * list pipe_event :=
  match schema_context schema with
  | Raise _ => (inl (RuntimeError "Erro ao gerar SQL."), [])
  | Ok schema_ctx =>
      let system_message :=
        if String.eqb schema_ctx "" then generate_system_message
        else generate_system_message ++ schema_ctx in
      (match chat system_message prompt with
       | Some content => inr (py_strip content)
       | None => inl (RuntimeError "Erro ao gerar SQL.")
       end, [ChatCompletion system_message prompt])
  end.

Definition pipeline_generate_sql (original_prompt : string) (schema : pyval)
    (schema_file_path : option string) : (pipe_error + string) * list pipe_event :=
  let '(loaded, pre) :=
    match schema_file_path with
    | Some p =>
        if String.eqb p "" then (inr schema, [])
        else let '(r, evs) :=
               load_schema_from_file path_exists read_text json_load yaml_safe_load p in
             (r, map LoadStep evs)
    | None => (inr schema, [])
    end in
  match loaded with
  | inl e => (inl (LoadFailed e), pre)
  | inr schema =>
      let '(r1, t1) := improve_prompt original_prompt schema in
      match r1 with
      | inl e => (inl e, (pre ++ t1)%list)
      | inr improved_prompt =>
          let '(r2, t2) := generate_sql_from_prompt improved_prompt schema in
          (r2, (pre ++ t1 ++ t2)%list)
      end
  end.

End Generator.

(* ------------------------------------------------------------------ *)
(** ** Auxiliary definitions for the statements *)

Definition is_ok {A : Type} (r : result A) : bool :=
  match r with Ok _ => true | Raise _ => false end.

(** Values [for _ in v] accepts. *)
Definition iterable (v : pyval) : bool :=
  match v with PList _ | PDict _ | PStr _ => true | _ => false end.

(** A table entry the formatter can render: when it is a dict, its
    ['columns'] (if present) is a dict and its ['foreign_keys'] (if present
    and truthy) is iterable. *)
Definition table_entry_renderable (table_info : pyval) : bool :=
  match table_info with
  | PDict d =>
      match py_lookup "columns" d with
      | Some (PDict _) | None => true
      | Some _ => false
      end
      && match py_lookup "foreign_keys" d with
         | Some fks => negb (truthy fks) || iterable fks
         | None => true
         end
  | _ => true
  end.

Definition schema_renderable (schema : pyval) : bool :=
  match schema with
  | PDict d => forallb (fun '(_, ti) => table_entry_renderable ti) d
  | _ => true
  end.

(** The [Primary Key:] line of a dict table entry, and the [Foreign Keys:]
    entries of an iterated value, as [format_table_info] writes them. *)
Definition pk_line (d : list (pyval * pyval)) : string :=
  match py_lookup "primary_key" d with
  | Some pk => if truthy pk then "Primary Key: " ++ py_str pk ++ nl else EmptyString
  | None => EmptyString
  end.

Definition fk_lines (l : list pyval) : string :=
  String.concat EmptyString (map (fun fk => "  - " ++ py_str fk ++ nl) l).

(** A key that is absent or has a falsy value. *)
Definition key_skipped (k : string) (d : list (pyval * pyval)) : Prop :=
  match py_lookup k d with Some v => truthy v = false | None => True end.

(** The [Columns:] and [Foreign Keys:] blocks of a dict table entry. *)
Definition columns_block (d : list (pyval * pyval)) : result string :=
  match py_lookup "columns" d with
  | Some cols =>
      items <- py_items cols ;;
      Ok ("Columns:" ++ nl
          ++ String.concat EmptyString
               (map (fun '(col_name, col_type) =>
                       "  - " ++ py_str col_name ++ ": " ++ py_str col_type ++ nl) items))
  | None => Ok EmptyString
  end.

Definition fk_block (d : list (pyval * pyval)) : result string :=
  match py_lookup "foreign_keys" d with
  | Some fks =>
      if truthy fks then l <- py_iter fks ;; Ok ("Foreign Keys:" ++ nl ++ fk_lines l)
      else Ok EmptyString
  | None => Ok EmptyString
  end.

Definition all_chars (f : ascii -> bool) (s : string) : bool :=
  forallb f (list_ascii_of_string s).

(** The first character of [s], if any, is outside [cls]. *)
Definition stops (cls : ascii -> bool) (s : string) : bool :=
  match s with EmptyString => true | String c _ => negb (cls c) end.

(** Well-formedness of a parsed schema: distinct table names, and distinct
    column names within each table. *)
Definition schema_wf (sch : schema) : Prop :=
  NoDup (map fst sch) /\ forall k ti, In (k, ti) sch -> NoDup (map fst (columns ti)).

(** A [\w+] identifier. *)
Definition ident (s : string) : Prop :=
  s <> EmptyString /\ all_chars is_word s = true.

(** The clause text [FOREIGN KEY (x) REFERENCES y(z)]. *)
Definition fk_clause (x y z : string) : string :=
  "FOREIGN KEY (" ++ x ++ ") REFERENCES " ++ y ++ "(" ++ z ++ ")".

(** Descriptor a clause contributes to [foreign_keys], if any. *)
Definition fk_descriptor (col : string) : list string :=
  let col_def := py_strip col in
  if is_pk_clause col_def then []
  else if is_fk_clause col_def then
    match re_search fk_pattern col_def with
    | Some (a :: b :: c :: _) => [a ++ " -> " ++ b ++ "." ++ c]
    | _ => []
    end
  else [].

Definition is_key_clause (col : string) : bool :=
  is_pk_clause (py_strip col) || is_fk_clause (py_strip col).

(** The text [format_schema_for_prompt] is expected to give for a schema
    of the parser's shape, written line by line. *)
Definition column_line (col : string * string) : string :=
  "  - " ++ fst col ++ ": " ++ snd col ++ nl.

Definition table_body (ti : table_info) : string :=
  "Columns:" ++ nl ++ String.concat "" (map column_line (columns ti))
  ++ match primary_key ti with
     | Some k => if String.eqb k "" then "" else "Primary Key: " ++ k ++ nl
     | None => ""
     end
  ++ match foreign_keys ti with
     | [] => ""
     | fks => "Foreign Keys:" ++ nl ++ String.concat "" (map (fun fk => "  - " ++ fk ++ nl) fks)
     end.

Definition table_block (name : string) (ti : table_info) : string :=
  "Table: " ++ name ++ nl ++ table_body ti ++ nl.

Definition rendered_schema (sch : schema) : string :=
  format_header ++ String.concat "" (map (fun nt => table_block (fst nt) (snd nt)) sch).

(** A script of [CREATE TABLE] statements, one per line. *)
Definition create_stmt (t body : string) : string :=
  "CREATE TABLE " ++ t ++ " (" ++ body ++ ");" ++ nl.

Fixpoint create_script (l : list (string * string)) : string :=
  match l with
  | [] => ""
  | (t, body) :: l' => create_stmt t body ++ create_script l'
  end.

(** [s] has no occurrence of the character [c]. *)
Definition free_of (c : ascii) (s : string) : bool :=
  all_chars (fun x => negb (Ascii.eqb x c)) s.

(** What a captured group of an item can hold. *)

Definition group_ok (it : item) (g : string) : Prop :=
  match it_atom it with
  | Lit _ => String.length g = 1
  | Rep cls mn _ => all_chars cls g = true /\ mn <= String.length g
  end.

(** The shapes of what the extractor records for a table. *)
Definition fk_shape (fk : string) : Prop :=
  exists x y z, ident x /\ ident y /\ ident z /\ fk = x ++ " -> " ++ y ++ "." ++ z.

Definition column_shape (col : string * string) : Prop :=
  fst col <> EmptyString /\ snd col <> EmptyString
  /\ all_chars (fun ch => negb (is_space ch)) (fst col) = true
  /\ free_of "," (fst col) = true /\ free_of "," (snd col) = true.

Definition table_shape (ti : table_info) : Prop :=
  (forall k, primary_key ti = Some k -> ident k)
  /\ Forall fk_shape (foreign_keys ti)
  /\ Forall column_shape (columns ti).

(* ------------------------------------------------------------------ *)
(** ** Lemmas on the formatter *)

Lemma format_table_info_ok (acc : string) (ti : pyval) :
  is_ok (format_table_info acc ti) = table_entry_renderable ti.
Proof.
  destruct ti as [| | | | | d]; try reflexivity.
  unfold format_table_info, table_entry_renderable.
  destruct (py_lookup "columns" d) as [[| | | | |cd]|]; simpl; try reflexivity;
  destruct (py_lookup "foreign_keys" d) as [[|b|z|s|l|fd]|]; simpl; try reflexivity;
  repeat match goal with
         | |- context [if ?b then _ else _] => destruct b
         end; reflexivity.
Qed.

Lemma format_tables_ok (acc : string) (d : list (pyval * pyval)) :
  is_ok (format_tables acc d) = forallb (fun '(_, ti) => table_entry_renderable ti) d.
Proof.
  revert acc; induction d as [|[k ti] d IH]; intros acc; simpl; [reflexivity|].
  rewrite <- (format_table_info_ok (acc ++ "Table: " ++ py_str k ++ nl) ti).
  destruct (format_table_info _ ti); simpl; [apply IH | reflexivity].
Qed.

(* ------------------------------------------------------------------ *)
(** ** Lemmas on strings and characters *)

Lemma append_assoc_s (a b c : string) : (a ++ b) ++ c = a ++ (b ++ c).
Proof. induction a as [|x a IH]; simpl; [reflexivity | now rewrite IH]. Qed.

Lemma append_empty_s (s : string) : s ++ EmptyString = s.
Proof. induction s as [|x s IH]; simpl; [reflexivity | now rewrite IH]. Qed.

Lemma length_append_s (a b : string) :
  String.length (a ++ b) = String.length a + String.length b.
Proof. induction a as [|x a IH]; simpl; [reflexivity | now rewrite IH]. Qed.

(** Case analysis over the 256 characters. *)
Ltac char_cases c :=
  destruct c as [b0 b1 b2 b3 b4 b5 b6 b7];
  destruct b0, b1, b2, b3, b4, b5, b6, b7; vm_compute; try reflexivity; try discriminate.

Lemma word_not_space (c : ascii) : is_word c = true -> is_space c = false.
Proof. char_cases c. Qed.

Lemma lit_eq_refl (c : ascii) : lit_eq c c = true.
Proof. unfold lit_eq; destruct (is_ascii_letter c); apply Ascii.eqb_refl. Qed.

Lemma str_take_app (s r : string) : str_take (String.length s) (s ++ r) = s.
Proof. induction s as [|x s IH]; simpl; [reflexivity | now rewrite IH]. Qed.

Lemma str_drop_app_len (s r : string) : str_drop (String.length s) (s ++ r) = r.
Proof. induction s as [|x s IH]; simpl; [reflexivity | exact IH]. Qed.

Lemma str_drop_app (k : nat) (s r : string) :
  k <= String.length s -> str_drop k (s ++ r) = str_drop k s ++ r.
Proof.
  revert s; induction k as [|k IH]; intros s Hk; [reflexivity|].
  destruct s as [|x s]; simpl in *; [lia | apply IH; lia].
Qed.

Lemma length_str_drop (k : nat) (s : string) :
  String.length (str_drop k s) = String.length s - k.
Proof.
  revert s; induction k as [|k IH]; intros [|x s]; simpl; auto; lia.
Qed.

Lemma run_len_app (cls : ascii -> bool) (s rest : string) :
  all_chars cls s = true -> stops cls rest = true ->
  run_len cls (s ++ rest) = String.length s.
Proof.
  intros Hs Hr; induction s as [|x s IH]; simpl in *.
  - destruct rest as [|c r]; simpl in *; [reflexivity|].
    destruct (cls c); [discriminate | reflexivity].
  - unfold all_chars in Hs; simpl in Hs; apply andb_true_iff in Hs as [Hx Hs].
    rewrite Hx, IH; auto.
Qed.

Lemma lstrip_nonspace (c : ascii) (t : string) :
  is_space c = false -> lstrip (String c t) = String c t.
Proof. intros H; simpl; now rewrite H. Qed.

Lemma rstrip_last_nonspace (s : string) (c : ascii) :
  is_space c = false -> rstrip (s ++ String c EmptyString) = s ++ String c EmptyString.
Proof.
  intros H; induction s as [|x s IH]; simpl.
  - now rewrite H.
  - simpl in IH; rewrite IH; destruct s; reflexivity.
Qed.

Lemma py_strip_fixed (c : ascii) (s : string) (d : ascii) :
  is_space c = false -> is_space d = false ->
  py_strip (String c (s ++ String d EmptyString)) = String c (s ++ String d EmptyString).
Proof.
  intros Hc Hd; unfold py_strip; rewrite lstrip_nonspace by exact Hc.
  exact (rstrip_last_nonspace (String c s) d Hd).
Qed.

(* ------------------------------------------------------------------ *)
(** ** Lemmas on the matcher *)

Lemma first_some_seq {B : Type} (f : nat -> option B) (a k n : nat) :
  k < n -> (forall j, j < k -> f (a + j) = None) -> f (a + k) <> None ->
  first_some f (seq a n) = f (a + k).
Proof.
  revert a n; induction k as [|k IH]; intros a n Hkn Hj Hk.
  - destruct n as [|n]; [lia|]; simpl.
    rewrite Nat.add_0_r in *; destruct (f a); [reflexivity | congruence].
  - destruct n as [|n]; [lia|]; simpl.
    assert (Ha : f a = None) by (rewrite <- (Nat.add_0_r a); apply Hj; lia).
    rewrite Ha.
    replace (a + S k) with (S a + k) in * by lia.
    apply IH; [lia| |exact Hk]; intros j Hj'.
    replace (S a + j) with (a + S j) by lia; apply Hj; lia.
Qed.

Lemma match_lits_self (s : string) (p : list item) (rest : string) :
  match_here (lits s ++ p) (s ++ rest) = match_here p rest.
Proof.
  induction s as [|x s IH]; [reflexivity|].
  simpl; rewrite lit_eq_refl; exact IH.
Qed.

(** A greedy repetition that consumes exactly the run [s] and lets the
    rest of the pattern match. *)
Lemma match_greedy (cls : ascii -> bool) (mn : nat) (g : bool) (p : list item)
    (s rest : string) (gs : list string) (r : string) :
  all_chars cls s = true -> stops cls rest = true -> mn <= String.length s ->
  match_here p rest = Some (gs, r) ->
  match_here ({| it_atom := Rep cls mn false; it_group := g |} :: p) (s ++ rest)
  = add_group g s (Some (gs, r)).
Proof.
  intros Hs Hr Hmn Hp; cbn [match_here it_atom it_group].
  rewrite (run_len_app cls s rest Hs Hr).
  replace (S (String.length s) - mn) with (String.length s - mn + 1) by lia.
  rewrite seq_app, rev_app_distr; simpl.
  replace (mn + (String.length s - mn)) with (String.length s) by lia.
  rewrite str_take_app, str_drop_app_len, Hp.
  destruct g; reflexivity.
Qed.

Lemma startswith_empty (s : string) : startswith s EmptyString = true.
Proof. destruct s; reflexivity. Qed.

Lemma match_close_none (u w : string) :
  u <> EmptyString -> startswith u ");" = false ->
  startswith w ")" = true ->
  match_here (lits ");") (u ++ w) = None.
Proof.
  intros Hu Hpre Hw.
  destruct u as [|a u]; [congruence|]; clear Hu.
  cbn [append lits match_here it_atom it_group].
  change (lit_eq ")" a) with (Ascii.eqb ")" a).
  destruct (Ascii.eqb_spec ")" a) as [<-|]; [|reflexivity].
  cbn [startswith] in Hpre; rewrite Ascii.eqb_refl in Hpre; simpl andb in Hpre.
  destruct u as [|b u]; cbn [append].
  - destruct w as [|c w]; cbn [startswith] in Hw; [discriminate Hw|].
    apply andb_true_iff in Hw as [Hw _]; apply Ascii.eqb_eq in Hw; subst c; reflexivity.
  - change (lit_eq ";" b) with (Ascii.eqb ";" b).
    cbn [startswith] in Hpre; rewrite startswith_empty, andb_true_r in Hpre.
    rewrite Hpre; reflexivity.
Qed.

Lemma contains_startswith_drop (s p : string) (k : nat) :
  contains s p = false -> startswith (str_drop k s) p = false.
Proof.
  revert s; induction k as [|k IH]; intros s H.
  - destruct s; simpl in *; apply orb_false_iff in H; apply H.
  - destruct s as [|x s]; simpl in *.
    + apply orb_false_iff in H; apply H.
    + apply IH; apply orb_false_iff in H; apply H.
Qed.

Lemma run_len_true (s : string) : run_len (fun _ => true) s = String.length s.
Proof. induction s as [|x s IH]; simpl; [reflexivity | now rewrite IH]. Qed.

(** The lazy [(.*?)\);] stops at the first [");"]. *)
Lemma match_lazy_body (body rest : string) :
  contains body ");" = false ->
  match_here (any_lazy_group :: lits ");") (body ++ ");" ++ rest)
  = Some ([body], rest).
Proof.
  intros Hc; cbn [match_here it_atom it_group any_lazy_group].
  rewrite Nat.sub_0_r.
  assert (Hend : add_group true (str_take (0 + String.length body) (body ++ ");" ++ rest))
                   (match_here (lits ");") (str_drop (0 + String.length body) (body ++ ");" ++ rest)))
                 = Some ([body], rest)).
  { rewrite Nat.add_0_l, str_take_app, str_drop_app_len; reflexivity. }
  rewrite (first_some_seq _ 0 (String.length body)).
  - exact Hend.
  - rewrite run_len_true, length_append_s; simpl; lia.
  - intros j Hj; rewrite Nat.add_0_l.
    rewrite str_drop_app by lia.
    rewrite match_close_none; [reflexivity| |now apply contains_startswith_drop|reflexivity].
    intros He; assert (Hl := length_str_drop j body); rewrite He in Hl; simpl in Hl; lia.
  - rewrite Hend; discriminate.
Qed.
Lemma finditer_from_exhausted (p : list item) (s : string) (k : nat) :
  match_here p EmptyString = None -> String.length s <= k ->
  finditer_from p s k = [].
Proof.
  intros Hp; revert k; induction s as [|c s IH]; intros k Hk.
  - destruct k; simpl; [now rewrite Hp | reflexivity].
  - destruct k as [|k]; simpl in Hk; [lia|].
    cbn [finditer_from]; apply IH; lia.
Qed.

Lemma finditer_whole (p : list item) (s : string) (gs : list string) :
  s <> EmptyString -> match_here p s = Some (gs, EmptyString) ->
  match_here p EmptyString = None ->
  finditer p s = [gs].
Proof.
  intros Hs Hm Hp; unfold finditer.
  destruct s as [|c s]; [congruence|].
  cbn [finditer_from]; rewrite Hm; f_equal.
  apply finditer_from_exhausted; [exact Hp | simpl; lia].
Qed.

Lemma ident_all (s : string) : ident s -> all_chars is_word s = true.
Proof. now intros [_ H]. Qed.

Lemma ident_len (s : string) : ident s -> 1 <= String.length s.
Proof. intros [H _]; destruct s; [congruence | simpl; lia]. Qed.

Lemma ident_stops_space (s r : string) : ident s -> stops is_space (s ++ r) = true.
Proof.
  intros [Hn Hw]; destruct s as [|c s]; [congruence|].
  unfold all_chars in Hw; simpl in Hw; apply andb_true_iff in Hw as [Hc _].
  cbn [append stops]; now rewrite word_not_space.
Qed.

Ltac side :=
  first [ reflexivity | (simpl; lia)
        | apply ident_all; assumption | apply ident_len; assumption
        | apply ident_stops_space; assumption ].

Ltac greedy_step :=
  erewrite match_greedy; [reflexivity | side | side | side | ].

Lemma match_create_table (t body : string) :
  ident t -> contains body ");" = false ->
  match_here create_table_pattern ("CREATE TABLE " ++ t ++ " (" ++ body ++ ");")
  = Some ([t; body], EmptyString).
Proof.
  intros Ht Hc; unfold create_table_pattern.
  change ("CREATE TABLE " ++ t ++ " (" ++ body ++ ");")
    with ("CREATE" ++ (" " ++ ("TABLE" ++ (" " ++ (t ++ (" " ++ ("(" ++ (body ++ (");" ++ EmptyString))))))))).
  rewrite match_lits_self; cbn [app]; unfold ws_plus, ws_star, word_group.
  greedy_step.
  rewrite match_lits_self; cbn [app].
  greedy_step.
  greedy_step.
  greedy_step.
  rewrite match_lits_self; cbn [app].
  now apply match_lazy_body.
Qed.

Lemma parse_single_create (t body : string) :
  ident t -> contains body ");" = false ->
  parse_sql_schema ("CREATE TABLE " ++ t ++ " (" ++ body ++ ");") = [(t, parse_table body)].
Proof.
  intros Ht Hc; unfold parse_sql_schema.
  rewrite (finditer_whole _ _ [t; body]);
    [reflexivity | discriminate | now apply match_create_table | reflexivity].
Qed.

Lemma match_fk_clause (x y z : string) :
  ident x -> ident y -> ident z ->
  match_here fk_pattern ("FOREIGN KEY (" ++ x ++ ") REFERENCES " ++ y ++ "(" ++ z ++ ")")
  = Some ([x; y; z], EmptyString).
Proof.
  intros Hx Hy Hz; unfold fk_pattern.
  change ("FOREIGN KEY (" ++ x ++ ") REFERENCES " ++ y ++ "(" ++ z ++ ")")
    with ("FOREIGN" ++ (" " ++ ("KEY" ++ (" " ++ ("(" ++ (x ++ (")" ++ (" " ++
          ("REFERENCES" ++ (" " ++ (y ++ (EmptyString ++ ("(" ++ (z ++ (")" ++ EmptyString))))))))))))))).
  rewrite match_lits_self; cbn [app]; unfold ws_plus, ws_star, word_group.
  greedy_step.
  rewrite match_lits_self; cbn [app].
  greedy_step.
  rewrite match_lits_self; cbn [app].
  greedy_step.
  rewrite match_lits_self; cbn [app].
  greedy_step.
  rewrite match_lits_self; cbn [app].
  greedy_step.
  greedy_step.
  greedy_step.
  rewrite match_lits_self; cbn [app].
  greedy_step.
  reflexivity.
Qed.

Lemma re_search_here (p : list item) (s : string) (gs : list string) (r : string) :
  match_here p s = Some (gs, r) -> re_search p s = Some gs.
Proof. intros H; destruct s; cbn [re_search]; now rewrite H. Qed.

Lemma py_strip_fk_clause (x y z : string) :
  py_strip (fk_clause x y z) = fk_clause x y z.
Proof.
  unfold fk_clause.
  replace ("FOREIGN KEY (" ++ x ++ ") REFERENCES " ++ y ++ "(" ++ z ++ ")")
    with (String "F" (("OREIGN KEY (" ++ x ++ ") REFERENCES " ++ y ++ "(" ++ z)
                      ++ String ")" EmptyString))
    by (rewrite !append_assoc_s; reflexivity).
  now apply py_strip_fixed.
Qed.

Lemma process_fk_clause (ti : table_info) (x y z : string) :
  ident x -> ident y -> ident z ->
  process_clause ti (fk_clause x y z) = add_foreign_key ti (x ++ " -> " ++ y ++ "." ++ z).
Proof.
  intros Hx Hy Hz; unfold process_clause.
  rewrite py_strip_fk_clause.
  assert (Hpk : is_pk_clause (fk_clause x y z) = false) by reflexivity.
  assert (Hfk : is_fk_clause (fk_clause x y z) = true) by reflexivity.
  rewrite Hpk, Hfk.
  rewrite (re_search_here fk_pattern (fk_clause x y z) _ _ (match_fk_clause x y z Hx Hy Hz)).
  reflexivity.
Qed.

Lemma fold_append_concat {A : Type} (f : A -> string) (l : list A) (a : string) :
  fold_left (fun acc x => acc ++ f x) l a = a ++ String.concat EmptyString (map f l).
Proof.
  revert a; induction l as [|x l IH]; intros a; simpl.
  - now rewrite append_empty_s.
  - rewrite IH, append_assoc_s; destruct l; simpl; [now rewrite append_empty_s | reflexivity].
Qed.

Lemma fk_not_pk (s : string) : is_fk_clause s = true -> is_pk_clause s = false.
Proof.
  unfold is_fk_clause, is_pk_clause; destruct s as [|c s]; [discriminate|].
  cbn [py_upper startswith]; intros H.
  apply andb_true_iff in H as [H _]; apply Ascii.eqb_eq in H; now rewrite <- H.
Qed.

Lemma foreign_keys_process_clause (ti : table_info) (c : string) :
  foreign_keys (process_clause ti c) = (foreign_keys ti ++ fk_descriptor c)%list.
Proof.
  unfold process_clause, fk_descriptor; cbv zeta.
  destruct (is_pk_clause (py_strip c)).
  - destruct (re_search pk_pattern (py_strip c)) as [[|k l]|]; simpl; now rewrite app_nil_r.
  - destruct (is_fk_clause (py_strip c)).
    + destruct (re_search fk_pattern (py_strip c)) as [[|a [|b [|c' l]]]|];
        simpl; now rewrite ?app_nil_r.
    + destruct (split_ws1 (py_strip c)) as [|n [|t l]]; simpl;
        try destruct (String.eqb n EmptyString); simpl; now rewrite app_nil_r.
Qed.

Lemma foreign_keys_process_clauses (ti : table_info) (cs : list string) :
  foreign_keys (process_clauses ti cs) = (foreign_keys ti ++ flat_map fk_descriptor cs)%list.
Proof.
  unfold process_clauses; revert ti; induction cs as [|c cs IH]; intros ti; simpl.
  - now rewrite app_nil_r.
  - rewrite IH, foreign_keys_process_clause, app_assoc; reflexivity.
Qed.

Lemma fk_clause_dropped (ti : table_info) (c : string) :
  is_fk_clause (py_strip c) = true -> re_search fk_pattern (py_strip c) = None ->
  process_clause ti c = ti.
Proof.
  intros Hfk Hre; unfold process_clause; cbv zeta.
  rewrite (fk_not_pk _ Hfk), Hfk, Hre; reflexivity.
Qed.

Lemma primary_key_preserved (ti : table_info) (c : string) :
  (is_pk_clause (py_strip c) = true -> re_search pk_pattern (py_strip c) = None) ->
  primary_key (process_clause ti c) = primary_key ti.
Proof.
  intros H; unfold process_clause; cbv zeta.
  destruct (is_pk_clause (py_strip c)).
  - now rewrite H.
  - destruct (is_fk_clause (py_strip c)).
    + destruct (re_search fk_pattern (py_strip c)) as [[|a [|b [|c' l]]]|]; reflexivity.
    + destruct (split_ws1 (py_strip c)) as [|n [|t l]]; simpl;
        try destruct (String.eqb n EmptyString); reflexivity.
Qed.

Lemma columns_key_clause (ti : table_info) (c : string) :
  is_key_clause c = true -> columns (process_clause ti c) = columns ti.
Proof.
  unfold is_key_clause, process_clause; cbv zeta; intros H.
  destruct (is_pk_clause (py_strip c)).
  - destruct (re_search pk_pattern (py_strip c)) as [[|k l]|]; reflexivity.
  - simpl in H; rewrite H.
    destruct (re_search fk_pattern (py_strip c)) as [[|a [|b [|c' l]]]|]; reflexivity.
Qed.

Lemma columns_process_clause_congr (ti1 ti2 : table_info) (c : string) :
  columns ti1 = columns ti2 ->
  columns (process_clause ti1 c) = columns (process_clause ti2 c).
Proof.
  intros H; unfold process_clause; cbv zeta.
  destruct (is_pk_clause (py_strip c)).
  - destruct (re_search pk_pattern (py_strip c)) as [[|k l]|]; exact H.
  - destruct (is_fk_clause (py_strip c)).
    + destruct (re_search fk_pattern (py_strip c)) as [[|a [|b [|c' l]]]|]; exact H.
    + destruct (split_ws1 (py_strip c)) as [|n [|t l]]; simpl;
        try destruct (String.eqb n EmptyString); simpl; now rewrite ?H.
Qed.

Lemma columns_filter_key_clauses (cs : list string) (ti1 ti2 : table_info) :
  columns ti1 = columns ti2 ->
  columns (process_clauses ti1 cs)
  = columns (process_clauses ti2 (filter (fun c => negb (is_key_clause c)) cs)).
Proof.
  unfold process_clauses; revert ti1 ti2; induction cs as [|c cs IH]; intros ti1 ti2 H; simpl.
  - exact H.
  - destruct (is_key_clause c) eqn:Hk; simpl.
    + apply IH; rewrite columns_key_clause by exact Hk; exact H.
    + apply IH; now apply columns_process_clause_congr.
Qed.

Lemma lstrip_stops (s : string) : stops is_space s = true -> lstrip s = s.
Proof.
  destruct s as [|c s]; [reflexivity|]; cbn [stops]; intros H.
  apply negb_true_iff in H; now apply lstrip_nonspace.
Qed.

Lemma lstrip_spaces_app (w t : string) :
  all_chars is_space w = true -> lstrip (w ++ t) = lstrip t.
Proof.
  induction w as [|c w IH]; intros H; [reflexivity|].
  unfold all_chars in H; simpl in H; apply andb_true_iff in H as [Hc Hw].
  simpl; rewrite Hc; now apply IH.
Qed.

Lemma span_nonspace_app (n r : string) :
  all_chars (fun ch => negb (is_space ch)) n = true ->
  stops (fun ch => negb (is_space ch)) r = true ->
  span_nonspace (n ++ r) = (n, r).
Proof.
  intros Hn Hr; induction n as [|c n IH]; simpl.
  - destruct r as [|c r]; [reflexivity|]; cbn [stops] in Hr.
    rewrite negb_involutive in Hr; simpl; now rewrite Hr.
  - unfold all_chars in Hn; simpl in Hn; apply andb_true_iff in Hn as [Hc Hn].
    apply negb_true_iff in Hc; rewrite Hc, IH; [reflexivity | exact Hn].
Qed.

Lemma lstrip_word_first (n r : string) :
  n <> EmptyString -> all_chars (fun ch => negb (is_space ch)) n = true ->
  lstrip (n ++ r) = n ++ r.
Proof.
  intros Hne Hn; destruct n as [|c n']; [congruence|].
  unfold all_chars in Hn; simpl in Hn; apply andb_true_iff in Hn as [Hc _].
  apply negb_true_iff in Hc; simpl; now rewrite Hc.
Qed.

Lemma split_ws1_pieces (n r : string) :
  n <> EmptyString -> all_chars (fun ch => negb (is_space ch)) n = true ->
  stops (fun ch => negb (is_space ch)) r = true ->
  split_ws1 (n ++ r) = match lstrip r with EmptyString => [n] | r' => [n; r'] end.
Proof.
  intros Hne Hn Hr; unfold split_ws1.
  rewrite lstrip_word_first by assumption.
  destruct (n ++ r) as [|a s0] eqn:E; [destruct n; [congruence | discriminate]|].
  rewrite <- E, span_nonspace_app by assumption.
  reflexivity.
Qed.

Lemma split_ws1_one (n : string) :
  n <> EmptyString -> all_chars (fun ch => negb (is_space ch)) n = true ->
  split_ws1 n = [n].
Proof.
  intros Hne Hn.
  rewrite <- (append_empty_s n) at 1.
  rewrite split_ws1_pieces by (reflexivity || assumption).
  reflexivity.
Qed.

Lemma split_ws1_two (n w t : string) :
  n <> EmptyString -> all_chars (fun ch => negb (is_space ch)) n = true ->
  w <> EmptyString -> all_chars is_space w = true ->
  t <> EmptyString -> stops is_space t = true ->
  split_ws1 (n ++ w ++ t) = [n; t].
Proof.
  intros Hne Hn Hwe Hw Hte Ht.
  rewrite split_ws1_pieces; [| assumption | assumption |].
  - rewrite lstrip_spaces_app, lstrip_stops by assumption.
    destruct t; [congruence | reflexivity].
  - destruct w as [|d w]; [congruence|].
    unfold all_chars in Hw; simpl in Hw; apply andb_true_iff in Hw as [Hd _].
    cbn [append stops]; now rewrite Hd.
Qed.

Lemma key_clause_false (c : string) :
  is_key_clause c = false ->
  is_pk_clause (py_strip c) = false /\ is_fk_clause (py_strip c) = false.
Proof. unfold is_key_clause; now rewrite orb_false_iff. Qed.

Lemma dict_set_keys {V : Type} (k : string) (v : V) (d : list (string * V)) (x : string) :
  In x (map fst (dict_set k v d)) <-> x = k \/ In x (map fst d).
Proof.
  induction d as [|[k' v'] t IH]; simpl.
  - intuition.
  - destruct (String.eqb_spec k k') as [->|Hne]; simpl.
    + intuition.
    + rewrite IH; intuition.
Qed.

Lemma dict_set_nodup {V : Type} (k : string) (v : V) (d : list (string * V)) :
  NoDup (map fst d) -> NoDup (map fst (dict_set k v d)).
Proof.
  induction d as [|[k' v'] t IH]; simpl; intros H.
  - constructor; [intros []|constructor].
  - inversion H as [|? ? Hnin Hnd]; subst.
    destruct (String.eqb_spec k k') as [->|Hne]; simpl.
    + now constructor.
    + constructor; [|now apply IH].
      rewrite dict_set_keys; intros [E|E]; [congruence | contradiction].
Qed.

Lemma dict_set_in {V : Type} (k : string) (v : V) (d : list (string * V)) (k' : string) (v' : V) :
  In (k', v') (dict_set k v d) -> In (k', v') d \/ v' = v.
Proof.
  induction d as [|[k0 v0] t IH]; simpl.
  - intros [E|[]]; injection E as _ <-; now right.
  - destruct (String.eqb k k0); simpl.
    + intros [E|E]; [injection E as _ <-; now right | left; now right].
    + intros [E|E]; [left; now left | destruct (IH E); [left; now right | now right]].
Qed.

Lemma columns_nodup_process_clause (ti : table_info) (c : string) :
  NoDup (map fst (columns ti)) -> NoDup (map fst (columns (process_clause ti c))).
Proof.
  intros H; unfold process_clause; cbv zeta.
  destruct (is_pk_clause (py_strip c)).
  - destruct (re_search pk_pattern (py_strip c)) as [[|k l]|]; exact H.
  - destruct (is_fk_clause (py_strip c)).
    + destruct (re_search fk_pattern (py_strip c)) as [[|a [|b [|c' l]]]|]; exact H.
    + destruct (split_ws1 (py_strip c)) as [|n [|t l]]; simpl;
        try destruct (String.eqb n EmptyString); simpl; auto using dict_set_nodup.
Qed.

Lemma columns_nodup_parse_table (body : string) :
  NoDup (map fst (columns (parse_table body))).
Proof.
  unfold parse_table, process_clauses.
  generalize (map py_strip (split_sep "," body)).
  assert (H0 : NoDup (map fst (columns empty_table))) by constructor.
  revert H0; generalize empty_table.
  intros ti Hti l; revert ti Hti; induction l as [|c l IH]; intros ti Hti; simpl.
  - exact Hti.
  - apply IH, columns_nodup_process_clause, Hti.
Qed.

Lemma parse_sql_schema_wf (s : string) : schema_wf (parse_sql_schema s).
Proof.
  unfold parse_sql_schema.
  generalize (finditer create_table_pattern s).
  assert (H0 : schema_wf []) by (split; [constructor | intros k ti []]).
  revert H0; generalize (@nil (string * table_info)).
  intros sch Hsch l; revert sch Hsch; induction l as [|gs l IH]; intros sch [Hk Hc]; simpl.
  - now split.
  - apply IH.
    destruct gs as [|name [|body rest]]; try now split.
    split; [now apply dict_set_nodup|].
    intros k ti Hin; apply dict_set_in in Hin; destruct Hin as [Hin|Hv]; [|subst ti];
      [exact (Hc k ti Hin) | apply columns_nodup_parse_table].
Qed.

(* ------------------------------------------------------------------ *)
(** ** Lemmas on the formatter's accumulator and rendering *)

Lemma fold_left_prefix {A : Type} (g : string -> A -> string) (l : list A) (a b : string) :
  (forall u v x, g (u ++ v) x = u ++ g v x) ->
  fold_left g l (a ++ b) = a ++ fold_left g l b.
Proof.
  intros Hg; revert b; induction l as [|x l IH]; intros b; simpl; [reflexivity|].
  now rewrite Hg, IH.
Qed.

Lemma format_table_info_acc (a b : string) (ti : pyval) :
  format_table_info (a ++ b) ti = (r <- format_table_info b ti ;; Ok (a ++ r)).
Proof.
  destruct ti as [| | | | | d]; try reflexivity.
  unfold format_table_info.
  assert (Hc : forall u v (x : pyval * pyval),
             (fun acc '(col_name, col_type) =>
                acc ++ "  - " ++ py_str col_name ++ ": " ++ py_str col_type ++ nl) (u ++ v) x
             = u ++ (fun acc '(col_name, col_type) =>
                       acc ++ "  - " ++ py_str col_name ++ ": " ++ py_str col_type ++ nl) v x).
  { intros u v [x y]; apply append_assoc_s. }
  assert (Hf : forall u v (x : pyval),
             (fun acc fk => acc ++ "  - " ++ py_str fk ++ nl) (u ++ v) x
             = u ++ (fun acc fk => acc ++ "  - " ++ py_str fk ++ nl) v x).
  { intros u v x; apply append_assoc_s. }
  assert (Htail : forall X,
    (let f2 := match py_lookup "primary_key" d with
               | Some pk => if truthy pk then (a ++ X) ++ "Primary Key: " ++ py_str pk ++ nl
                            else a ++ X
               | None => a ++ X
               end in
     match py_lookup "foreign_keys" d with
     | Some fks =>
         if truthy fks then
           l <- py_iter fks ;;
           Ok (fold_left (fun acc fk => acc ++ "  - " ++ py_str fk ++ nl)
                         l (f2 ++ "Foreign Keys:" ++ nl))
         else Ok f2
     | None => Ok f2
     end)
    = (r <- (let f2 := match py_lookup "primary_key" d with
               | Some pk => if truthy pk then X ++ "Primary Key: " ++ py_str pk ++ nl
                            else X
               | None => X
               end in
     match py_lookup "foreign_keys" d with
     | Some fks =>
         if truthy fks then
           l <- py_iter fks ;;
           Ok (fold_left (fun acc fk => acc ++ "  - " ++ py_str fk ++ nl)
                         l (f2 ++ "Foreign Keys:" ++ nl))
         else Ok f2
     | None => Ok f2
     end) ;; Ok (a ++ r))).
  { intros X; cbv zeta.
    destruct (py_lookup "primary_key" d) as [pk|]; [destruct (truthy pk)|];
    (destruct (py_lookup "foreign_keys" d) as [fks|]; [destruct (truthy fks)|]);
    try (destruct (py_iter fks) as [l|e]); cbn [bind]; try reflexivity;
    rewrite ?append_assoc_s; try reflexivity;
    rewrite (fold_left_prefix _ _ _ _ Hf); reflexivity. }
  destruct (py_lookup "columns" d) as [cols|]; cbn [bind].
  - destruct (py_items cols) as [items|e]; cbn [bind]; [|reflexivity].
    rewrite append_assoc_s, (fold_left_prefix _ _ _ _ Hc).
    apply Htail.
  - apply Htail.
Qed.

Lemma format_tables_acc (a b : string) (d : list (pyval * pyval)) :
  format_tables (a ++ b) d = (r <- format_tables b d ;; Ok (a ++ r)).
Proof.
  revert b; induction d as [|[k ti] d IH]; intros b; cbn [format_tables]; [reflexivity|].
  rewrite append_assoc_s, format_table_info_acc.
  destruct (format_table_info (b ++ "Table: " ++ py_str k ++ nl) ti) as [f|e];
    cbn [bind]; [|reflexivity].
  rewrite append_assoc_s; apply IH.
Qed.

Lemma format_tables_app (acc : string) (d1 d2 : list (pyval * pyval)) :
  format_tables acc (d1 ++ d2) = (f <- format_tables acc d1 ;; format_tables f d2).
Proof.
  revert acc; induction d1 as [|[k ti] d1 IH]; intros acc; simpl; [reflexivity|].
  destruct (format_table_info _ ti); simpl; [apply IH | reflexivity].
Qed.

Lemma fold_concat_ext {A : Type} (g : string -> A -> string) (f : A -> string)
    (l : list A) (a : string) :
  (forall u x, g u x = u ++ f x) ->
  fold_left g l a = a ++ String.concat "" (map f l).
Proof.
  intros Hg; rewrite <- fold_append_concat; revert a.
  induction l as [|x l IH]; intros a; simpl; [reflexivity|].
  rewrite Hg; apply IH.
Qed.

Lemma fold_left_map_s {A B : Type} (g : string -> B -> string) (h : A -> B)
    (l : list A) (a : string) :
  fold_left g (map h l) a = fold_left (fun u x => g u (h x)) l a.
Proof. revert a; induction l as [|x l IH]; intros a; simpl; [reflexivity | apply IH]. Qed.

Lemma format_table_info_py_of_table (acc : string) (ti : table_info) :
  format_table_info acc (py_of_table ti) = Ok (acc ++ table_body ti).
Proof.
  destruct ti as [cols pk fks]; unfold format_table_info, py_of_table, table_body.
  cbn [py_lookup String.eqb Ascii.eqb Bool.eqb andb columns primary_key foreign_keys
       py_items bind].
  rewrite fold_left_map_s.
  rewrite (fold_concat_ext _ column_line) by (intros u [x y]; reflexivity).
  assert (Hfk : forall X,
    (if truthy (PList (map PStr fks)) then
       l <- py_iter (PList (map PStr fks)) ;;
       Ok (fold_left (fun acc fk => acc ++ "  - " ++ py_str fk ++ nl)
                     l (X ++ "Foreign Keys:" ++ nl))
     else Ok X)
    = Ok (X ++ match fks with
              | [] => ""
              | fks => "Foreign Keys:" ++ nl
                       ++ String.concat "" (map (fun fk => "  - " ++ fk ++ nl) fks)
              end)).
  { intros X; destruct fks as [|fk fks']; [now rewrite append_empty_s|].
    cbn [truthy map List.length Nat.eqb negb py_iter bind].
    rewrite <- (map_cons PStr fk fks'), fold_left_map_s,
      (fold_concat_ext _ (fun fk => "  - " ++ fk ++ nl)) by (intros u x; reflexivity).
    now rewrite !append_assoc_s. }
  cbv zeta; rewrite Hfk.
  destruct pk as [k|]; cbn [truthy].
  - destruct (String.eqb k "") eqn:Ek; cbn [negb]; rewrite !append_assoc_s;
      rewrite ?(fun x => eq_refl : EmptyString ++ x = x); destruct fks; reflexivity.
  - rewrite !append_assoc_s; destruct fks; reflexivity.
Qed.

Lemma format_tables_py_of_schema (acc : string) (sch : schema) :
  format_tables acc (map (fun '(n, ti) => (PStr n, py_of_table ti)) sch)
  = Ok (acc ++ String.concat "" (map (fun nt => table_block (fst nt) (snd nt)) sch)).
Proof.
  rewrite <- fold_append_concat; revert acc.
  induction sch as [|[n ti] sch IH]; intros acc; cbn [map format_tables fold_left].
  - reflexivity.
  - rewrite format_table_info_py_of_table; cbn [bind]; rewrite IH.
    unfold table_block, py_str; cbn [py_fmt fst snd]; now rewrite !append_assoc_s.
Qed.

Lemma format_schema_py_of_schema (sch : schema) :
  format_schema_for_prompt (py_of_schema sch) = Ok (rendered_schema sch).
Proof.
  unfold py_of_schema; cbn [format_schema_for_prompt].
  apply format_tables_py_of_schema.
Qed.

Lemma truthy_validate (v : pyval) : truthy v && validate_schema v = validate_schema v.
Proof. destruct v as [| | | | | [|x d]]; simpl; rewrite ?andb_false_r; reflexivity. Qed.

(** A dict table entry is its [Columns:] block, its [Primary Key:] line and
    its [Foreign Keys:] block, in this order. *)
Lemma format_table_info_blocks (acc : string) (d : list (pyval * pyval)) :
  format_table_info acc (PDict d)
  = (c <- columns_block d ;; f <- fk_block d ;; Ok (acc ++ c ++ pk_line d ++ f)).
Proof.
  unfold format_table_info, columns_block, fk_block, pk_line, fk_lines.
  set (g := fun (a : string) (fk : pyval) => a ++ "  - " ++ py_str fk ++ nl).
  assert (Htail : forall f1 c, f1 = acc ++ c ->
    (let f2 := match py_lookup "primary_key" d with
               | Some pk => if truthy pk then f1 ++ "Primary Key: " ++ py_str pk ++ nl else f1
               | None => f1 end in
     match py_lookup "foreign_keys" d with
     | Some fks => if truthy fks then l <- py_iter fks ;;
                     Ok (fold_left g l (f2 ++ "Foreign Keys:" ++ nl)) else Ok f2
     | None => Ok f2 end)
    = (f <- match py_lookup "foreign_keys" d with
            | Some fks => if truthy fks then l <- py_iter fks ;;
                 Ok ("Foreign Keys:" ++ nl ++ String.concat EmptyString
                       (map (fun fk => "  - " ++ py_str fk ++ nl) l))
                 else Ok EmptyString
            | None => Ok EmptyString end ;;
       Ok (acc ++ c ++ match py_lookup "primary_key" d with
                       | Some pk => if truthy pk then "Primary Key: " ++ py_str pk ++ nl
                                    else EmptyString
                       | None => EmptyString end ++ f))).
  { intros f1 c ->; cbv zeta.
    destruct (py_lookup "primary_key" d) as [pk|]; [destruct (truthy pk)|];
    (destruct (py_lookup "foreign_keys" d) as [fks|];
      [destruct (truthy fks); [destruct (py_iter fks) as [l|e]|]|]);
    cbn [bind]; unfold g; rewrite ?fold_append_concat, ?append_assoc_s, ?append_empty_s;
    reflexivity. }
  destruct (py_lookup "columns" d) as [cols|].
  - destruct (py_items cols) as [items|e]; cbn [bind]; [|reflexivity].
    apply Htail.
    rewrite (fold_concat_ext _ (fun '(col_name, col_type) =>
               "  - " ++ py_str col_name ++ ": " ++ py_str col_type ++ nl));
      [now rewrite append_assoc_s | intros u [n t]; reflexivity].
  - cbn [bind]; apply Htail; now rewrite append_empty_s.
Qed.

(** A dict table entry whose ['columns'] is [{}] or absent. *)
Lemma format_table_info_cols_ok (acc cols_hdr : string) (d : list (pyval * pyval)) :
  (py_lookup "columns" d = Some (PDict []) /\ cols_hdr = "Columns:" ++ nl)
  \/ (py_lookup "columns" d = None /\ cols_hdr = EmptyString) ->
  format_table_info acc (PDict d)
  = (let f2 := acc ++ cols_hdr ++ pk_line d in
     match py_lookup "foreign_keys" d with
     | Some fks =>
         if truthy fks then
           l <- py_iter fks ;;
           Ok (fold_left (fun acc fk => acc ++ "  - " ++ py_str fk ++ nl)
                         l (f2 ++ "Foreign Keys:" ++ nl))
         else Ok f2
     | None => Ok f2
     end).
Proof.
  intros [[Hc ->]|[Hc ->]]; unfold format_table_info, pk_line; rewrite Hc;
    cbn [bind py_items fold_left]; cbv zeta;
    destruct (py_lookup "primary_key" d) as [pk|]; try destruct (truthy pk);
    rewrite ?append_assoc_s, ?append_empty_s; reflexivity.
Qed.

(* ------------------------------------------------------------------ *)
(** ** Lemmas on scripts of several statements *)

Lemma match_create_table_rest (t body rest : string) :
  ident t -> contains body ");" = false ->
  match_here create_table_pattern ("CREATE TABLE " ++ t ++ " (" ++ body ++ ");" ++ rest)
  = Some ([t; body], rest).
Proof.
  intros Ht Hc; unfold create_table_pattern.
  change ("CREATE TABLE " ++ t ++ " (" ++ body ++ ");" ++ rest)
    with ("CREATE" ++ (" " ++ ("TABLE" ++ (" " ++ (t ++ (" " ++ ("(" ++ (body ++ (");" ++ rest))))))))).
  rewrite match_lits_self; cbn [app]; unfold ws_plus, ws_star, word_group.
  greedy_step.
  rewrite match_lits_self; cbn [app].
  greedy_step.
  greedy_step.
  greedy_step.
  rewrite match_lits_self; cbn [app].
  now apply match_lazy_body.
Qed.

Lemma finditer_from_skip (p : list item) (u r : string) :
  finditer_from p (u ++ r) (String.length u) = finditer_from p r 0.
Proof. induction u as [|c u IH]; [reflexivity | exact IH]. Qed.

Lemma finditer_from_match (p : list item) (s1 s2 : string) (gs : list string) :
  s1 <> EmptyString -> match_here p (s1 ++ s2) = Some (gs, s2) ->
  finditer_from p (s1 ++ s2) 0 = gs :: finditer_from p s2 0.
Proof.
  intros Hs Hm; destruct s1 as [|c u]; [congruence|].
  cbn [append finditer_from]; cbn [append] in Hm; rewrite Hm; f_equal.
  replace (String.length (String c (u ++ s2)) - String.length s2 - 1) with (String.length u)
    by (cbn [String.length]; rewrite length_append_s; lia).
  apply finditer_from_skip.
Qed.

Lemma finditer_create_script (l : list (string * string)) :
  Forall (fun tb => ident (fst tb) /\ contains (snd tb) ");" = false) l ->
  finditer create_table_pattern (create_script l) = map (fun tb => [fst tb; snd tb]) l.
Proof.
  unfold finditer; induction l as [|[t body] l IH]; intros Hl; [reflexivity|].
  inversion Hl as [|? ? [Ht Hb] Hl']; subst; cbn [fst snd] in *.
  cbn [create_script].
  assert (E : create_stmt t body ++ create_script l
              = ("CREATE TABLE " ++ t ++ " (" ++ body ++ ");") ++ (nl ++ create_script l))
    by (unfold create_stmt; rewrite !append_assoc_s; reflexivity).
  rewrite E.
  rewrite (finditer_from_match _ ("CREATE TABLE " ++ t ++ " (" ++ body ++ ");")
             (nl ++ create_script l) [t; body]).
  - cbn [map]; f_equal. cbn [nl append finditer_from].
    replace (match_here create_table_pattern (String "010" (create_script l))) with
      (@None (list string * string)) by reflexivity.
    exact (IH Hl').
  - discriminate.
  - rewrite !append_assoc_s.
    apply (match_create_table_rest t body (nl ++ create_script l)); assumption.
Qed.

(* ------------------------------------------------------------------ *)
(** ** Lemmas on paths *)

Lemma split_sep_free (sep : ascii) (n : string) :
  free_of sep n = true -> split_sep sep n = [n].
Proof.
  unfold free_of, all_chars; induction n as [|c n IH]; intros H; [reflexivity|].
  cbn [list_ascii_of_string forallb] in H; apply andb_true_iff in H as [Hc Hn].
  cbn [split_sep]; apply negb_true_iff in Hc; rewrite Hc, (IH Hn); reflexivity.
Qed.

Lemma split_sep_app_sep (sep : ascii) (d n : string) :
  exists x pre, split_sep sep (d ++ String sep n) = (x :: pre ++ split_sep sep n)%list.
Proof.
  induction d as [|c d IH]; cbn [append split_sep].
  - rewrite Ascii.eqb_refl; now exists EmptyString, [].
  - destruct IH as [x [pre E]]; rewrite E.
    destruct (Ascii.eqb c sep).
    + now exists EmptyString, (x :: pre).
    + now exists (String c x), pre.
Qed.

Lemma split_sep_not_nil (sep : ascii) (s : string) : split_sep sep s <> [].
Proof.
  induction s as [|c s IH]; cbn [split_sep]; [discriminate|].
  destruct (Ascii.eqb c sep); [discriminate|].
  destruct (split_sep sep s); discriminate.
Qed.

Lemma last_app_nonnil {A : Type} (l l' : list A) (d : A) :
  l' <> [] -> last (l ++ l') d = last l' d.
Proof.
  intros H; induction l as [|x l IH]; [reflexivity|].
  rewrite <- app_comm_cons; cbn [last]; rewrite IH.
  destruct (l ++ l')%list eqn:E; [apply app_eq_nil in E as [_ ->]; congruence | reflexivity].
Qed.

Lemma path_name_dir (d n : string) :
  free_of "/" n = true -> path_name (d ++ "/" ++ n) = n.
Proof.
  intros Hn; unfold path_name.
  destruct (split_sep_app_sep "/" d n) as [x [pre E]].
  change ("/" ++ n) with (String "/" n); rewrite E.
  rewrite app_comm_cons, last_app_nonnil by apply split_sep_not_nil.
  now rewrite split_sep_free.
Qed.

Lemma path_name_plain (n : string) : free_of "/" n = true -> path_name n = n.
Proof. intros Hn; unfold path_name; now rewrite split_sep_free. Qed.

Lemma rfind_dot_app (u v : string) :
  rfind_dot (u ++ v) = match rfind_dot v with
                       | Some i => Some (String.length u + i)
                       | None => rfind_dot u
                       end.
Proof.
  induction u as [|c u IH]; cbn [append rfind_dot String.length].
  - destruct (rfind_dot v); reflexivity.
  - rewrite IH; destruct (rfind_dot v); [reflexivity|].
    destruct (rfind_dot u); reflexivity.
Qed.

Lemma rfind_dot_free (s : string) : free_of "." s = true -> rfind_dot s = None.
Proof.
  unfold free_of, all_chars; induction s as [|c s IH]; intros H; [reflexivity|].
  cbn [list_ascii_of_string forallb] in H; apply andb_true_iff in H as [Hc Hs].
  cbn [rfind_dot]; rewrite (IH Hs); apply negb_true_iff in Hc; now rewrite Hc.
Qed.

Lemma free_of_app (c : ascii) (u v : string) :
  free_of c (u ++ v) = free_of c u && free_of c v.
Proof.
  unfold free_of, all_chars; induction u as [|x u IH]; [reflexivity|].
  cbn [append list_ascii_of_string forallb]; rewrite IH; apply andb_assoc.
Qed.

Lemma rfind_dot_ext (b e : string) :
  free_of "." e = true -> rfind_dot (b ++ "." ++ e) = Some (String.length b).
Proof.
  intros He; rewrite rfind_dot_app; cbn [append rfind_dot].
  rewrite rfind_dot_free by exact He; cbn; now rewrite Nat.add_0_r.
Qed.

Lemma suffix_of_name (b e : string) :
  free_of "." e = true -> b <> EmptyString -> e <> EmptyString ->
  (let name := b ++ "." ++ e in
   match rfind_dot name with
   | Some i =>
       if Nat.ltb 0 i && Nat.ltb i (String.length name - 1)
       then str_drop i name else EmptyString
   | None => EmptyString
   end) = "." ++ e.
Proof.
  intros He Hb Hne; cbv zeta; rewrite rfind_dot_ext by exact He.
  rewrite length_append_s; cbn [append String.length].
  destruct b as [|c b]; [congruence|]; destruct e as [|x e]; [congruence|].
  cbn [String.length].
  replace (Nat.ltb 0 (S (String.length b))) with true by (symmetry; apply Nat.ltb_lt; lia).
  replace (Nat.ltb (S (String.length b)) (S (String.length b) + S (S (String.length e)) - 1))
    with true by (symmetry; apply Nat.ltb_lt; lia).
  apply (str_drop_app_len (String c b)).
Qed.

Lemma suffix_of_dotfile (e : string) :
  free_of "." e = true ->
  (let name := "." ++ e in
   match rfind_dot name with
   | Some i =>
       if Nat.ltb 0 i && Nat.ltb i (String.length name - 1)
       then str_drop i name else EmptyString
   | None => EmptyString
   end) = EmptyString.
Proof.
  intros He; cbv zeta; cbn [append rfind_dot]; rewrite rfind_dot_free by exact He.
  reflexivity.
Qed.

(* ------------------------------------------------------------------ *)
(** ** Lemmas on captured groups and the recorded shapes *)

Lemma first_some_in {A B : Type} (f : A -> option B) (l : list A) (y : B) :
  first_some f l = Some y -> exists x, In x l /\ f x = Some y.
Proof.
  induction l as [|x l IH]; cbn [first_some]; [discriminate|].
  destruct (f x) eqn:E; intros H.
  - injection H as ->; exists x; split; [now left | exact E].
  - destruct (IH H) as [x' [Hin Hx]]; exists x'; split; [now right | exact Hx].
Qed.

Lemma str_take_run (cls : ascii -> bool) (k : nat) (s : string) :
  k <= run_len cls s ->
  all_chars cls (str_take k s) = true /\ String.length (str_take k s) = k.
Proof.
  revert s; induction k as [|k IH]; intros s Hk; [split; reflexivity|].
  destruct s as [|c s]; cbn [run_len] in Hk; [lia|].
  destruct (cls c) eqn:Ec; [|lia].
  destruct (IH s) as [H1 H2]; [lia|].
  cbn [str_take String.length]; unfold all_chars in *; cbn [list_ascii_of_string forallb].
  now rewrite Ec, H1, H2.
Qed.

Lemma match_here_groups (p : list item) (s : string) (gs : list string) (r : string) :
  match_here p s = Some (gs, r) -> Forall2 group_ok (filter it_group p) gs.
Proof.
  revert s gs r; induction p as [|[a g] p IH]; intros s gs r H.
  - cbn in H; injection H as <- _; constructor.
  - destruct a as [c|cls mn lz]; cbn [match_here it_atom it_group] in H.
    + destruct s as [|d t]; [discriminate|].
      destruct (lit_eq c d); [|discriminate].
      destruct (match_here p t) as [[gs' r']|] eqn:E; destruct g; cbn in H;
        try discriminate; injection H as <- <-; cbn [filter it_group].
      * constructor; [reflexivity | exact (IH _ _ _ E)].
      * exact (IH _ _ _ E).
    + apply first_some_in in H as [k [Hk H]].
      assert (Hr : mn <= k <= run_len cls s).
      { destruct lz; [|apply in_rev in Hk]; apply in_seq in Hk; lia. }
      destruct (str_take_run cls k s) as [H1 H2]; [lia|].
      destruct (match_here p (str_drop k s)) as [[gs' r']|] eqn:E; destruct g; cbn in H;
        try discriminate; injection H as <- <-; cbn [filter it_group].
      * constructor; [unfold group_ok; cbn; split; [exact H1 | lia] | exact (IH _ _ _ E)].
      * exact (IH _ _ _ E).
Qed.

Lemma re_search_from_match (p : list item) (s : string) (gs : list string) :
  re_search p s = Some gs -> exists s' r, match_here p s' = Some (gs, r).
Proof.
  induction s as [|c s IH]; intros H.
  - cbn [re_search] in H.
    destruct (match_here p "") as [[gs' r']|] eqn:E; [|discriminate].
    injection H as <-; now exists "", r'.
  - cbn [re_search] in H.
    destruct (match_here p (String c s)) as [[gs' r']|] eqn:E.
    + injection H as <-; now exists (String c s), r'.
    + now apply IH.
Qed.

Lemma finditer_from_match_in (p : list item) (s : string) (k : nat) (gs : list string) :
  In gs (finditer_from p s k) -> exists s' r, match_here p s' = Some (gs, r).
Proof.
  revert k; induction s as [|c s IH]; intros k.
  - destruct k; cbn; [|intros []].
    destruct (match_here p "") as [[gs' r']|] eqn:E; [|intros []].
    intros [<-|[]]; now exists "", r'.
  - destruct k as [|k]; cbn [finditer_from]; [|apply IH].
    destruct (match_here p (String c s)) as [[gs' r']|] eqn:E.
    + intros [<-|Hin]; [now exists (String c s), r' | exact (IH _ Hin)].
    + apply IH.
Qed.

Lemma dict_set_in_kv {V : Type} (k : string) (v : V) (d : list (string * V)) (k' : string) (v' : V) :
  In (k', v') (dict_set k v d) -> In (k', v') d \/ (k' = k /\ v' = v).
Proof.
  induction d as [|[k0 v0] t IH]; cbn [dict_set In].
  - intros [E|[]]; injection E as <- <-; now right.
  - destruct (String.eqb_spec k k0) as [->|_]; cbn [In].
    + intros [E|E]; [injection E as <- <-; now right | left; now right].
    + intros [E|E]; [left; now left | destruct (IH E) as [H|H]; [left; now right | now right]].
Qed.

Lemma group_word_ident (g : string) : group_ok word_group g -> ident g.
Proof.
  unfold group_ok; cbn; intros [Hw Hl]; split; [|exact Hw].
  intros ->; cbn in Hl; lia.
Qed.

Lemma split_sep_pieces_free (sep : ascii) (s x : string) :
  In x (split_sep sep s) -> free_of sep x = true.
Proof.
  revert x; induction s as [|c s IH]; intros x; cbn [split_sep].
  - intros [<-|[]]; reflexivity.
  - destruct (Ascii.eqb c sep) eqn:Ec.
    + intros [<-|Hin]; [reflexivity | exact (IH _ Hin)].
    + destruct (split_sep sep s) as [|y ys] eqn:E.
      * intros [<-|[]]; unfold free_of, all_chars; cbn; now rewrite Ec.
      * intros [<-|Hin]; [|apply IH; now right].
        unfold free_of, all_chars in *; cbn [list_ascii_of_string forallb].
        rewrite Ec; cbn; apply IH; now left.
Qed.

Lemma free_of_lstrip (c : ascii) (s : string) :
  free_of c s = true -> free_of c (lstrip s) = true.
Proof.
  unfold free_of, all_chars; induction s as [|x s IH]; cbn [lstrip]; [trivial|].
  destruct (is_space x); [|trivial].
  cbn [list_ascii_of_string forallb]; intros H; apply andb_true_iff in H as [_ H]; exact (IH H).
Qed.

Lemma free_of_rstrip (c : ascii) (s : string) :
  free_of c s = true -> free_of c (rstrip s) = true.
Proof.
  unfold free_of, all_chars; induction s as [|x s IH]; cbn [rstrip]; [trivial|].
  cbn [list_ascii_of_string forallb]; intros H; apply andb_true_iff in H as [Hx H].
  specialize (IH H); destruct (rstrip s) as [|y r].
  - destruct (is_space x); cbn; [reflexivity | now rewrite Hx].
  - cbn [list_ascii_of_string forallb] in *; now rewrite Hx, IH.
Qed.

Lemma span_nonspace_spec (s : string) :
  s = fst (span_nonspace s) ++ snd (span_nonspace s)
  /\ all_chars (fun ch => negb (is_space ch)) (fst (span_nonspace s)) = true.
Proof.
  induction s as [|c s [IH1 IH2]]; [split; reflexivity|].
  cbn [span_nonspace]; destruct (is_space c) eqn:Ec; [split; reflexivity|].
  destruct (span_nonspace s) as [w r]; cbn [fst snd] in *.
  split; [now rewrite IH1 at 1|].
  unfold all_chars in *; cbn [list_ascii_of_string forallb]; now rewrite Ec, IH2.
Qed.

Lemma lstrip_head (s t : string) (c : ascii) : lstrip s = String c t -> is_space c = false.
Proof.
  induction s as [|x s IH]; cbn [lstrip]; [discriminate|].
  destruct (is_space x) eqn:Ex; [exact IH|].
  intros E; injection E as <- _; exact Ex.
Qed.

Lemma free_of_strip_pieces (c : ascii) (s : string) :
  free_of c s = true ->
  (forall x, In x (split_ws1 s) -> x <> EmptyString /\ free_of c x = true)
  /\ (forall n l, split_ws1 s = n :: l -> all_chars (fun ch => negb (is_space ch)) n = true).
Proof.
  intros Hs; unfold split_ws1.
  assert (H1 := free_of_lstrip c s Hs).
  destruct (lstrip s) as [|x t] eqn:El; [split; [intros _ []| discriminate]|].
  assert (Hx := lstrip_head s t x El).
  destruct (span_nonspace_spec (String x t)) as [Hsp Hall].
  assert (Hw : free_of c (fst (span_nonspace (String x t))) = true
               /\ free_of c (snd (span_nonspace (String x t))) = true).
  { rewrite Hsp, free_of_app in H1; now apply andb_true_iff in H1. }
  assert (Hne : fst (span_nonspace (String x t)) <> EmptyString).
  { cbn [span_nonspace]; rewrite Hx; destruct (span_nonspace t); discriminate. }
  destruct (span_nonspace (String x t)) as [w r]; cbn [fst snd] in *.
  destruct Hw as [Hw Hr]; assert (Hr' := free_of_lstrip c r Hr).
  destruct (lstrip r) as [|y u]; split.
  - intros z [<-|[]]; now split.
  - intros n l E; injection E as <- _; exact Hall.
  - intros z [<-|[<-|[]]]; [now split | split; [discriminate | exact Hr']].
  - intros n l E; injection E as <- _; exact Hall.
Qed.

Lemma table_shape_process_clause (ti : table_info) (c : string) :
  table_shape ti -> free_of "," c = true -> table_shape (process_clause ti c).
Proof.
  intros [Hpk [Hfk Hcol]] Hc; unfold process_clause; cbv zeta.
  destruct (is_pk_clause (py_strip c)).
  - destruct (re_search pk_pattern (py_strip c)) as [[|k l]|] eqn:E;
      try (split; [|split]; assumption).
    apply re_search_from_match in E as [s' [r Hm]].
    apply match_here_groups in Hm.
    change (filter it_group pk_pattern) with [word_group] in Hm.
    inversion Hm as [|? ? ? ? Hk _]; subst.
    split; [|split; assumption].
    cbn [primary_key set_primary_key]; intros k' E; injection E as <-.
    now apply group_word_ident.
  - destruct (is_fk_clause (py_strip c)).
    + destruct (re_search fk_pattern (py_strip c)) as [[|a [|b [|d l]]]|] eqn:E;
        try (split; [|split]; assumption).
      apply re_search_from_match in E as [s' [r Hm]].
      apply match_here_groups in Hm.
      change (filter it_group fk_pattern) with [word_group; word_group; word_group] in Hm.
      inversion Hm as [|? ? ? ? Ha Hm1]; subst.
      inversion Hm1 as [|? ? ? ? Hb Hm2]; subst.
      inversion Hm2 as [|? ? ? ? Hd _]; subst.
      split; [exact Hpk|split; [|exact Hcol]].
      cbn [foreign_keys add_foreign_key]; apply Forall_app; split; [exact Hfk|].
      constructor; [|constructor].
      exists a, b, d; repeat split; try (apply group_word_ident; assumption).
    + assert (Hs : free_of "," (py_strip c) = true)
        by (apply free_of_rstrip, free_of_lstrip, Hc).
      destruct (free_of_strip_pieces "," _ Hs) as [Hin Hfirst].
      destruct (split_ws1 (py_strip c)) as [|n [|t l]] eqn:E;
        [split; [|split]; assumption| |].
      * destruct (String.eqb_spec n EmptyString); [split; [|split]; assumption|].
        split; [exact Hpk|split; [exact Hfk|]].
        cbn [columns set_column]; apply Forall_forall; intros [n' t'] Hnt.
        apply dict_set_in_kv in Hnt as [Hnt|[-> ->]].
        -- exact (proj1 (Forall_forall _ _) Hcol _ Hnt).
        -- destruct (Hin n (or_introl eq_refl)) as [_ Hn].
           repeat split;
             first [assumption | (unfold default_type; discriminate)
                   | exact (Hfirst n [] eq_refl) | reflexivity].
      * split; [exact Hpk|split; [exact Hfk|]].
        cbn [columns set_column]; apply Forall_forall; intros [n' t'] Hnt.
        apply dict_set_in_kv in Hnt as [Hnt|[-> ->]].
        -- exact (proj1 (Forall_forall _ _) Hcol _ Hnt).
        -- destruct (Hin n (or_introl eq_refl)) as [Hn1 Hn2].
           destruct (Hin t (or_intror (or_introl eq_refl))) as [Ht1 Ht2].
           repeat split; try assumption. exact (Hfirst n (t :: l) eq_refl).
Qed.

Lemma table_shape_parse_table (body : string) : table_shape (parse_table body).
Proof.
  unfold parse_table, process_clauses.
  assert (H0 : table_shape empty_table)
    by (split; [discriminate | split; constructor]).
  assert (Hl : Forall (fun c => free_of "," c = true) (map py_strip (split_sep "," body))).
  { apply Forall_forall; intros c Hc; apply in_map_iff in Hc as [x [<- Hx]].
    apply free_of_rstrip, free_of_lstrip, (split_sep_pieces_free _ _ _ Hx). }
  revert H0 Hl; generalize empty_table, (map py_strip (split_sep "," body)).
  intros ti l; revert ti; induction l as [|c l IH]; intros ti Hti Hl; [exact Hti|].
  inversion Hl; subst; cbn [fold_left].
  apply IH; [apply table_shape_process_clause|]; assumption.
Qed.

Lemma contains_str_drop (k : nat) (s p : string) :
  contains (str_drop k s) p = true -> contains s p = true.
Proof.
  revert s; induction k as [|k IH]; intros s H; [exact H|].
  destruct s as [|c s]; cbn [str_drop] in H; [exact H|].
  cbn [contains]; apply orb_true_iff; right; exact (IH s H).
Qed.

Lemma match_close_contains (q : list item) (s : string) (gs : list string) (r : string) :
  match_here (q ++ lits ");") s = Some (gs, r) -> contains s ");" = true.
Proof.
  revert s gs r; induction q as [|[a g] q IH]; intros s gs r H.
  - cbn [app lits match_here it_atom it_group] in H.
    destruct s as [|x t]; [discriminate|].
    change (lit_eq ")" x) with (Ascii.eqb ")" x) in H.
    destruct (Ascii.eqb_spec ")" x) as [<-|]; [|discriminate].
    destruct t as [|y t]; [destruct (match_here [] EmptyString); discriminate|].
    change (lit_eq ";" y) with (Ascii.eqb ";" y) in H.
    destruct (Ascii.eqb_spec ";" y) as [<-|].
    + cbn [contains startswith]; rewrite !Ascii.eqb_refl, startswith_empty; reflexivity.
    + destruct (match_here [] (String y t)); discriminate.
  - destruct a as [c|cls mn lz]; cbn [app match_here it_atom it_group] in H.
    + destruct s as [|d t]; [discriminate|].
      destruct (lit_eq c d); [|discriminate].
      destruct (match_here (q ++ lits ");") t) as [[gs' r']|] eqn:E; destruct g;
        cbn in H; try discriminate.
      all: cbn [contains]; apply orb_true_iff; right; exact (IH _ _ _ E).
    + apply first_some_in in H as [k [_ H]].
      destruct (match_here (q ++ lits ");") (str_drop k s)) as [[gs' r']|] eqn:E; destruct g;
        cbn in H; try discriminate.
      all: apply (contains_str_drop k); exact (IH _ _ _ E).
Qed.

Lemma finditer_from_no_close (q : list item) (s : string) (k : nat) :
  contains s ");" = false -> finditer_from (q ++ lits ");") s k = [].
Proof.
  revert k; induction s as [|c s IH]; intros k Hs.
  - destruct k; cbn [finditer_from]; [|reflexivity].
    destruct (match_here (q ++ lits ");") "") as [[gs r]|] eqn:E; [|reflexivity].
    apply match_close_contains in E; congruence.
  - assert (Ht : contains s ");" = false)
      by (cbn [contains] in Hs; apply orb_false_iff in Hs; exact (proj2 Hs)).
    destruct k as [|k]; cbn [finditer_from]; [|exact (IH k Ht)].
    destruct (match_here (q ++ lits ");") (String c s)) as [[gs r]|] eqn:E;
      [apply match_close_contains in E; congruence | exact (IH 0 Ht)].
Qed.

(* ------------------------------------------------------------------ *)
(** ** Claims *)

(** C1: parsing [CREATE TABLE t (a INT, b VARCHAR(10), PRIMARY KEY(a));]
    yields exactly one table ["t"] whose columns are exactly
    [{"a": "INT", "b": "VARCHAR(10)"}] (in that order), whose primary key
    is ["a"] and which has no foreign keys. *)
Theorem parse_sql_schema_example_table :
  parse_sql_schema "CREATE TABLE t (a INT, b VARCHAR(10), PRIMARY KEY(a));"
  = [("t", {| columns := [("a", "INT"); ("b", "VARCHAR(10)")];
              primary_key := Some "a";
              foreign_keys := [] |})].
Proof. vm_compute; reflexivity. Qed.

(** C2 (counterexample): a table entry whose ['columns'] is a string makes
    [format_schema_for_prompt] raise [AttributeError] ([.items()] on a
    [str]), and one whose ['foreign_keys'] is the integer [1] makes it
    raise [TypeError] (iterating an [int]). *)
Lemma format_schema_malformed_fields_raise :
  format_schema_for_prompt
    (PDict [(PStr "t", PDict [(PStr "columns", PStr "a INT")])]) = Raise AttributeError
  /\ format_schema_for_prompt
       (PDict [(PStr "t", PDict [(PStr "foreign_keys", PInt 1)])]) = Raise TypeError.
Proof. split; reflexivity. Qed.

(** C2 (amended): [format_schema_for_prompt] returns a string exactly when
    every dict table entry has a dict (or no) ['columns'] and a falsy or
    iterable (or no) ['foreign_keys']; a non-dict schema yields the header
    alone and a non-dict table entry contributes only its [Table:] line. A
    dict entry whose ['columns'] is present and not a dict raises
    [AttributeError]; one whose ['columns'] is fine and whose
    ['foreign_keys'] is truthy and not iterable raises [TypeError]; an
    absent or falsy ['primary_key'] or ['foreign_keys'] contributes nothing
    to the output; and an entry that raises, after entries that render,
    makes the whole call raise the same exception. *)
Theorem format_schema_total_iff_renderable :
  (forall schema,
     is_ok (format_schema_for_prompt schema) = schema_renderable schema)
  /\ (forall schema,
        match schema with
        | PDict _ => True
        | _ => format_schema_for_prompt schema = Ok format_header
        end)
  /\ (forall acc table_info,
        match table_info with
        | PDict _ => True
        | _ => format_table_info acc table_info = Ok acc
        end)
  /\ (forall acc d v, py_lookup "columns" d = Some v -> (forall c, v <> PDict c) ->
        format_table_info acc (PDict d) = Raise AttributeError)
  /\ (forall acc d fks,
        (forall v, py_lookup "columns" d = Some v -> exists c, v = PDict c) ->
        py_lookup "foreign_keys" d = Some fks -> truthy fks = true -> iterable fks = false ->
        format_table_info acc (PDict d) = Raise TypeError)
  /\ (forall acc d,
        format_table_info acc (PDict d)
        = (c <- columns_block d ;; f <- fk_block d ;; Ok (acc ++ c ++ pk_line d ++ f)))
  /\ (forall d, key_skipped "primary_key" d -> pk_line d = EmptyString)
  /\ (forall d, key_skipped "foreign_keys" d -> fk_block d = Ok EmptyString)
  /\ (forall d1 k ti d2 e,
        forallb (fun '(_, ti) => table_entry_renderable ti) d1 = true ->
        (forall acc, format_table_info acc ti = Raise e) ->
        format_schema_for_prompt (PDict (d1 ++ (k, ti) :: d2)) = Raise e).
Proof.
  split; [|split; [|split; [|split; [|split; [|split; [|split; [|split]]]]]]].
  - intros [| | | | | d]; try reflexivity. apply format_tables_ok.
  - intros [| | | | | d]; exact I || reflexivity.
  - intros acc [| | | | | d]; exact I || reflexivity.
  - intros acc d v Hc Hv; rewrite format_table_info_blocks; unfold columns_block; rewrite Hc.
    destruct v as [| | | | |c]; [..|exfalso; exact (Hv c eq_refl)]; reflexivity.
  - intros acc d fks Hc Hf Ht Hi; rewrite format_table_info_blocks; unfold columns_block, fk_block.
    rewrite Hf, Ht.
    assert (Hfk : py_iter fks = Raise TypeError) by (destruct fks; try discriminate; reflexivity).
    rewrite Hfk.
    destruct (py_lookup "columns" d) as [v|]; [|reflexivity].
    destruct (Hc v eq_refl) as [c ->]; reflexivity.
  - apply format_table_info_blocks.
  - unfold key_skipped, pk_line; intros d; destruct (py_lookup "primary_key" d) as [pk|];
      [intros ->|]; reflexivity.
  - unfold key_skipped, fk_block; intros d; destruct (py_lookup "foreign_keys" d) as [fks|];
      [intros ->|]; reflexivity.
  - intros d1 k ti d2 e Hr He; unfold format_schema_for_prompt.
    rewrite format_tables_app.
    pose proof (format_tables_ok format_header d1) as Hok; rewrite Hr in Hok.
    destruct (format_tables format_header d1) as [f|]; [|discriminate].
    cbn [bind format_tables]; rewrite He; reflexivity.
Qed.

Lemma format_schema_total_iff_renderable_witness :
  format_table_info "" (PDict [(PStr "columns", PList [])]) = Raise AttributeError
  /\ format_table_info "" (PDict [(PStr "columns", PDict []); (PStr "foreign_keys", PBool true)])
     = Raise TypeError
  /\ pk_line [(PStr "primary_key", PNone)] = EmptyString
  /\ fk_block [(PStr "foreign_keys", PList [])] = Ok EmptyString
  /\ format_schema_for_prompt
       (PDict ([(PStr "a", PInt 3)] ++ (PStr "t", PDict [(PStr "columns", PInt 0)]) :: []))
     = Raise AttributeError.
Proof.
  destruct format_schema_total_iff_renderable
    as (_ & _ & _ & Hcol & Hfk & _ & Hpk & Hfb & Hprop).
  split; [|split; [|split; [|split]]].
  - apply (Hcol "" _ (PList [])); [reflexivity | discriminate].
  - apply (Hfk "" _ (PBool true)); [|reflexivity ..].
    intros v Hv; exists []; cbn in Hv; congruence.
  - apply Hpk; reflexivity.
  - apply Hfb; reflexivity.
  - apply Hprop; [reflexivity|].
    intros acc; apply (Hcol acc _ (PInt 0)); [reflexivity | discriminate].
Defined.

(** C3: a path that does not exist fails with [FileNotFoundError] carrying
    the path, after the existence check and nothing else; an existing path
    whose lower-cased suffix is not [.json], [.yaml], [.yml] or [.sql]
    fails with [ValueError] carrying the suffix, again with no read, decode
    or parse in the trace. *)
Theorem load_schema_errors :
  forall path_exists read_text json_load yaml_safe_load,
    (forall p, path_exists p = false ->
       load_schema_from_file path_exists read_text json_load yaml_safe_load p
       = (inl (FileNotFoundError ("Schema file not found: " ++ p)), [CheckExists p]))
    /\ (forall p, path_exists p = true ->
          ~ In (py_lower (path_suffix p)) [".json"; ".yaml"; ".yml"; ".sql"] ->
          load_schema_from_file path_exists read_text json_load yaml_safe_load p
          = (inl (ValueError ("Unsupported file format: " ++ path_suffix p)),
             [CheckExists p])).
Proof.
  intros path_exists read_text json_load yaml_safe_load; split.
  - intros p Hp; unfold load_schema_from_file; now rewrite Hp.
  - intros p Hp Hs; unfold load_schema_from_file; rewrite Hp; simpl negb; cbv iota.
    destruct (String.eqb_spec (py_lower (path_suffix p)) ".json") as [E|_];
      [rewrite E in Hs; simpl in Hs; tauto|].
    destruct (String.eqb_spec (py_lower (path_suffix p)) ".yaml") as [E|_];
      [rewrite E in Hs; simpl in Hs; tauto|].
    destruct (String.eqb_spec (py_lower (path_suffix p)) ".yml") as [E|_];
      [rewrite E in Hs; simpl in Hs; tauto|].
    destruct (String.eqb_spec (py_lower (path_suffix p)) ".sql") as [E|_];
      [rewrite E in Hs; simpl in Hs; tauto|].
    reflexivity.
Qed.

Lemma load_schema_errors_witness :
  load_schema_from_file (fun _ => false) (fun _ => inr EmptyString)
    (fun _ => inr PNone) (fun _ => inr PNone) "missing.json"
  = (inl (FileNotFoundError ("Schema file not found: " ++ "missing.json")),
     [CheckExists "missing.json"])
  /\ load_schema_from_file (fun _ => true) (fun _ => inr EmptyString)
       (fun _ => inr PNone) (fun _ => inr PNone) "notes.txt"
     = (inl (ValueError ("Unsupported file format: " ++ path_suffix "notes.txt")),
        [CheckExists "notes.txt"]).
Proof.
  split.
  - apply (proj1 (load_schema_errors (fun _ => false) (fun _ => inr EmptyString)
                    (fun _ => inr PNone) (fun _ => inr PNone))).
    reflexivity.
  - apply (proj2 (load_schema_errors (fun _ => true) (fun _ => inr EmptyString)
                    (fun _ => inr PNone) (fun _ => inr PNone))).
    + reflexivity.
    + vm_compute; intros H; repeat destruct H as [H|H]; try discriminate; contradiction.
Defined.

(** C4: [validate_schema] accepts exactly the non-empty dicts; it rejects
    [{}] and a plain string, and it rejects the result of
    [parse_sql_schema] exactly when no table was found. *)
Theorem validate_schema_spec :
  (forall v, validate_schema v = true <-> exists d, v = PDict d /\ d <> [])
  /\ validate_schema (PDict []) = false
  /\ validate_schema (PStr "CREATE TABLE t (a INT);") = false
  /\ (forall s, validate_schema (py_of_schema (parse_sql_schema s)) = false
                <-> parse_sql_schema s = []).
Proof.
  split; [|split; [reflexivity | split; [reflexivity|]]].
  - intros [| | | | | [|e d]]; simpl; split; intros H.
    all: first [ discriminate | reflexivity
               | (exists (e :: d); split; [reflexivity | discriminate])
               | (destruct H as [d' [H1 H2]];
                  first [discriminate | (injection H1 as <-; congruence)]) ].
  - intros s; unfold py_of_schema; destruct (parse_sql_schema s); simpl;
      split; intros H; congruence.
Qed.

(** C8: formatting [{"t": {"columns": {"a": "INT"}, "primary_key": "a",
    "foreign_keys": []}}] gives the header, a blank line, [Table: t],
    [Columns:], [  - a: INT], [Primary Key: a] and the separating blank
    line, and no [Foreign Keys:] header. *)
Theorem format_example_table :
  format_schema_for_prompt
    (PDict [(PStr "t", PDict [(PStr "columns", PDict [(PStr "a", PStr "INT")]);
                              (PStr "primary_key", PStr "a");
                              (PStr "foreign_keys", PList [])])])
  = Ok ("DATABASE SCHEMA:" ++ nl ++ nl ++ "Table: t" ++ nl ++ "Columns:" ++ nl
        ++ "  - a: INT" ++ nl ++ "Primary Key: a" ++ nl ++ nl)
  /\ contains ("DATABASE SCHEMA:" ++ nl ++ nl ++ "Table: t" ++ nl ++ "Columns:" ++ nl
               ++ "  - a: INT" ++ nl ++ "Primary Key: a" ++ nl ++ nl) "Foreign Keys:"
     = false.
Proof. split; vm_compute; reflexivity. Qed.

(** C10 (counterexample): with ['columns'] mapped to [{}] and
    ['foreign_keys'] mapped to the integer [1], no [Columns:] header is
    emitted: iterating the truthy [int] raises [TypeError]. *)
Lemma format_columns_empty_but_fk_raises :
  format_schema_for_prompt
    (PDict [(PStr "t", PDict [(PStr "columns", PDict []); (PStr "foreign_keys", PInt 1)])])
  = Raise TypeError.
Proof. reflexivity. Qed.

(** C10 (amended): for any dict table entry whose ['columns'] is [{}] (or
    absent), the output is the [Columns:] header with no entry under it (or
    nothing for the columns), then the [Primary Key:] line, which is empty
    unless ['primary_key'] is present and truthy, then the [Foreign Keys:]
    block, which is empty when ['foreign_keys'] is absent or falsy, lists the
    iterated values when it is truthy and iterable, and raises [TypeError]
    when it is truthy and not iterable. *)
Theorem format_table_info_presence_vs_truthiness :
  forall acc d cols_hdr,
    (py_lookup "columns" d = Some (PDict []) /\ cols_hdr = "Columns:" ++ nl)
    \/ (py_lookup "columns" d = None /\ cols_hdr = EmptyString) ->
    (key_skipped "foreign_keys" d ->
       format_table_info acc (PDict d) = Ok (acc ++ cols_hdr ++ pk_line d))
    /\ (forall fks l, py_lookup "foreign_keys" d = Some fks -> truthy fks = true ->
          py_iter fks = Ok l ->
          format_table_info acc (PDict d)
          = Ok (acc ++ cols_hdr ++ pk_line d ++ "Foreign Keys:" ++ nl ++ fk_lines l))
    /\ (forall fks, py_lookup "foreign_keys" d = Some fks -> truthy fks = true ->
          iterable fks = false -> format_table_info acc (PDict d) = Raise TypeError)
    /\ (key_skipped "primary_key" d -> pk_line d = EmptyString)
    /\ (forall pk, py_lookup "primary_key" d = Some pk -> truthy pk = true ->
          pk_line d = "Primary Key: " ++ py_str pk ++ nl).
Proof.
  intros acc d hdr Hc; rewrite (format_table_info_cols_ok acc hdr d Hc); cbv zeta.
  split; [|split; [|split; [|split]]].
  - unfold key_skipped; destruct (py_lookup "foreign_keys" d) as [fks|]; [intros ->|];
      reflexivity.
  - intros fks l Hf Ht Hi; rewrite Hf, Ht, Hi; cbn [bind].
    unfold fk_lines; rewrite fold_append_concat, !append_assoc_s; reflexivity.
  - intros fks Hf Ht Hi; rewrite Hf, Ht.
    destruct fks; try discriminate; reflexivity.
  - unfold key_skipped, pk_line; destruct (py_lookup "primary_key" d) as [pk|]; [intros ->|];
      reflexivity.
  - intros pk Hp Ht; unfold pk_line; now rewrite Hp, Ht.
Qed.

Lemma format_table_info_presence_vs_truthiness_witness :
  format_table_info "" (PDict [(PStr "columns", PDict []); (PStr "primary_key", PNone);
                              (PStr "foreign_keys", PList [])])
  = Ok ("" ++ ("Columns:" ++ nl) ++ pk_line [(PStr "columns", PDict []); (PStr "primary_key", PNone);
                              (PStr "foreign_keys", PList [])])
  /\ format_table_info "" (PDict [(PStr "primary_key", PStr "id");
                                (PStr "foreign_keys", PList [PStr "a -> b.c"])])
     = Ok ("" ++ EmptyString ++ pk_line [(PStr "primary_key", PStr "id");
                                (PStr "foreign_keys", PList [PStr "a -> b.c"])]
           ++ "Foreign Keys:" ++ nl ++ fk_lines [PStr "a -> b.c"])
  /\ format_table_info "" (PDict [(PStr "columns", PDict []); (PStr "foreign_keys", PInt 1)])
     = Raise TypeError
  /\ pk_line [(PStr "columns", PDict []); (PStr "primary_key", PStr "")] = EmptyString
  /\ pk_line [(PStr "primary_key", PStr "id")] = "Primary Key: " ++ py_str (PStr "id") ++ nl.
Proof.
  split; [|split; [|split; [|split]]].
  - refine (proj1 (format_table_info_presence_vs_truthiness "" _ ("Columns:" ++ nl) _) _);
      [left; split; reflexivity | reflexivity].
  - refine (proj1 (proj2 (format_table_info_presence_vs_truthiness "" _ EmptyString _))
              (PList [PStr "a -> b.c"]) _ _ _ _);
      [right; split; reflexivity | reflexivity ..].
  - refine (proj1 (proj2 (proj2 (format_table_info_presence_vs_truthiness "" _
              ("Columns:" ++ nl) _))) (PInt 1) _ _ _);
      [left; split; reflexivity | reflexivity ..].
  - refine (proj1 (proj2 (proj2 (proj2 (format_table_info_presence_vs_truthiness ""
              [(PStr "columns", PDict []); (PStr "primary_key", PStr "")]
              ("Columns:" ++ nl) _)))) _);
      [left; split; reflexivity | reflexivity].
  - refine (proj2 (proj2 (proj2 (proj2 (format_table_info_presence_vs_truthiness ""
              [(PStr "primary_key", PStr "id")] EmptyString _)))) (PStr "id") _ _);
      [right; split; reflexivity | reflexivity ..].
Defined.


(** C5: a clause [FOREIGN KEY (x) REFERENCES y(z)] appends ["x -> y.z"];
    over a list of clauses the descriptors are appended in the clauses'
    order; a [FOREIGN KEY] clause whose sub-pattern does not match leaves
    the entry unchanged; and a [CREATE TABLE t (body);] statement is
    recognised with [body] as its clause text. *)
Theorem foreign_key_clauses_appended :
  (forall ti x y z, ident x -> ident y -> ident z ->
     process_clause ti (fk_clause x y z) = add_foreign_key ti (x ++ " -> " ++ y ++ "." ++ z))
  /\ (forall ti cs,
        foreign_keys (process_clauses ti cs) = (foreign_keys ti ++ flat_map fk_descriptor cs)%list)
  /\ (forall ti c, is_fk_clause (py_strip c) = true -> re_search fk_pattern (py_strip c) = None ->
        process_clause ti c = ti)
  /\ (forall t body, ident t -> contains body ");" = false ->
        parse_sql_schema ("CREATE TABLE " ++ t ++ " (" ++ body ++ ");")
        = [(t, parse_table body)]).
Proof.
  split; [|split; [|split]].
  - intros; now apply process_fk_clause.
  - apply foreign_keys_process_clauses.
  - apply fk_clause_dropped.
  - apply parse_single_create.
Qed.

Lemma foreign_key_clauses_appended_witness :
  process_clause empty_table (fk_clause "user_id" "users" "id")
  = add_foreign_key empty_table ("user_id" ++ " -> " ++ "users" ++ "." ++ "id")
  /\ process_clause empty_table "FOREIGN KEY user_id" = empty_table
  /\ parse_sql_schema ("CREATE TABLE " ++ "orders" ++ " (" ++ "id INT, FOREIGN KEY (uid) REFERENCES users(id)" ++ ");")
     = [("orders", parse_table "id INT, FOREIGN KEY (uid) REFERENCES users(id)")].
Proof.
  destruct foreign_key_clauses_appended as [H1 [_ [H3 H4]]].
  split; [|split].
  - apply H1; split; try discriminate; reflexivity.
  - apply H3; vm_compute; reflexivity.
  - apply H4; [split; [discriminate | reflexivity] | reflexivity].
Defined.

(** C6: when a [PRIMARY KEY] clause with a matching sub-pattern is
    followed only by clauses that set no primary key, its column is the
    entry's primary key (later clauses overwrite earlier ones); clauses
    classified as [PRIMARY KEY] or [FOREIGN KEY] never change [columns],
    so the columns are those obtained from the other clauses alone. *)
Theorem primary_key_last_wins_and_key_clauses_not_columns :
  (forall ti pre c post x gs,
     is_pk_clause (py_strip c) = true -> re_search pk_pattern (py_strip c) = Some (x :: gs) ->
     (forall c', In c' post -> is_pk_clause (py_strip c') = true ->
                 re_search pk_pattern (py_strip c') = None) ->
     primary_key (process_clauses ti (pre ++ c :: post)) = Some x)
  /\ (forall ti c, is_key_clause c = true -> columns (process_clause ti c) = columns ti)
  /\ (forall ti cs,
        columns (process_clauses ti cs)
        = columns (process_clauses ti (filter (fun c => negb (is_key_clause c)) cs))).
Proof.
  split; [|split].
  - intros ti pre c post x gs Hpk Hre Hpost; unfold process_clauses.
    rewrite fold_left_app; simpl.
    assert (Hc : primary_key (process_clause (fold_left process_clause pre ti) c) = Some x).
    { unfold process_clause; cbv zeta; rewrite Hpk, Hre; reflexivity. }
    revert Hc; generalize (process_clause (fold_left process_clause pre ti) c).
    induction post as [|c' post IH]; intros t Ht; simpl; [exact Ht|].
    apply IH; [intros c'' Hin; apply Hpost; now right|].
    rewrite primary_key_preserved; [exact Ht|]; apply Hpost; now left.
  - apply columns_key_clause.
  - intros ti cs; now apply columns_filter_key_clauses.
Qed.

Lemma primary_key_last_wins_and_key_clauses_not_columns_witness :
  primary_key (process_clauses empty_table
                 (["PRIMARY KEY(a)"] ++ "PRIMARY KEY (b)" :: ["c INT"; "FOREIGN KEY (c) REFERENCES t(id)"])%list)
  = Some "b"
  /\ columns (process_clause empty_table "PRIMARY KEY (b)") = columns empty_table.
Proof.
  destruct primary_key_last_wins_and_key_clauses_not_columns as [H1 [H2 _]].
  split.
  - apply (H1 empty_table ["PRIMARY KEY(a)"] "PRIMARY KEY (b)" _ "b" []);
      [vm_compute; reflexivity | vm_compute; reflexivity |].
    intros c' Hin Hpk; simpl in Hin.
    destruct Hin as [<-|[<-|[]]]; vm_compute in Hpk; discriminate.
  - apply H2; vm_compute; reflexivity.
Defined.

(** C7: a clause classified neither as [PRIMARY KEY] nor as [FOREIGN KEY]
    is split at its first run of whitespace: a name followed by whitespace
    and a rest records the column [name] with type [rest]; a single word
    records the column with type ["VARCHAR(255)"]; an empty clause leaves
    the entry unchanged. *)
Theorem non_key_clause_becomes_column :
  (forall ti c, py_strip c = EmptyString -> process_clause ti c = ti)
  /\ (forall ti c n,
        py_strip c = n -> n <> EmptyString ->
        all_chars (fun ch => negb (is_space ch)) n = true ->
        is_key_clause c = false ->
        process_clause ti c = set_column ti n default_type)
  /\ (forall ti c n w t,
        py_strip c = n ++ w ++ t ->
        n <> EmptyString -> all_chars (fun ch => negb (is_space ch)) n = true ->
        w <> EmptyString -> all_chars is_space w = true ->
        t <> EmptyString -> stops is_space t = true ->
        is_key_clause c = false ->
        process_clause ti c = set_column ti n t).
Proof.
  split; [|split].
  - intros ti c H; unfold process_clause; cbv zeta; rewrite H; reflexivity.
  - intros ti c n Hs Hne Hn Hk.
    apply key_clause_false in Hk as [Hpk Hfk].
    unfold process_clause; cbv zeta; rewrite Hpk, Hfk, Hs, split_ws1_one by assumption.
    destruct (String.eqb_spec n EmptyString); [congruence | reflexivity].
  - intros ti c n w t Hs Hne Hn Hwe Hw Hte Ht Hk.
    apply key_clause_false in Hk as [Hpk Hfk].
    unfold process_clause; cbv zeta; rewrite Hpk, Hfk, Hs, split_ws1_two by assumption.
    reflexivity.
Qed.

Lemma non_key_clause_becomes_column_witness :
  process_clause empty_table "   " = empty_table
  /\ process_clause empty_table " email " = set_column empty_table "email" default_type
  /\ process_clause empty_table "  name   VARCHAR(100) NOT NULL "
     = set_column empty_table "name" "VARCHAR(100) NOT NULL".
Proof.
  destruct non_key_clause_becomes_column as [H1 [H2 H3]].
  split; [|split].
  - apply H1; vm_compute; reflexivity.
  - apply (H2 empty_table " email " "email");
      [vm_compute; reflexivity | discriminate | vm_compute; reflexivity | vm_compute; reflexivity].
  - apply (H3 empty_table "  name   VARCHAR(100) NOT NULL " "name" "   " "VARCHAR(100) NOT NULL");
      try discriminate; vm_compute; reflexivity.
Defined.

(** Claim C9: every table entry produced by [parse_sql_schema], on every
    input, is a dict with exactly the keys "columns", "primary_key" and
    "foreign_keys" (in that order, each once); "columns" maps strings to
    strings with distinct keys, "primary_key" is None or a string, and
    "foreign_keys" is a list of strings. Table names are distinct too. *)
Theorem parse_sql_schema_entry_shape (s : string) :
  NoDup (map fst (parse_sql_schema s)) /\
  exists d, py_of_schema (parse_sql_schema s) = PDict d /\
  Forall (fun kv => exists name cols pk fks,
             fst kv = PStr name /\
             snd kv = PDict [(PStr "columns", PDict (map (fun '(a, b) => (PStr a, PStr b)) cols));
                             (PStr "primary_key", pk);
                             (PStr "foreign_keys", PList (map PStr fks))] /\
             NoDup (map fst cols) /\
             (pk = PNone \/ exists p, pk = PStr p)) d.
Proof.
  destruct (parse_sql_schema_wf s) as [Hk Hc]; split; [exact Hk|].
  eexists; split; [reflexivity|].
  apply Forall_forall; intros kv Hin; apply in_map_iff in Hin as [[n ti] [<- Hin]].
  exists n, (columns ti),
    (match primary_key ti with Some p => PStr p | None => PNone end), (foreign_keys ti).
  split; [reflexivity|]; split; [reflexivity|]; split; [exact (Hc n ti Hin)|].
  destruct (primary_key ti) as [p|]; [right; now exists p | now left].
Qed.


(* ------------------------------------------------------------------ *)
(** ** Further properties of the module and its callers *)

(** X1: [format_schema_for_prompt] on a dict is compositional: the text
    for the items [d1 ++ d2] is the text for [d1] followed by the table
    blocks of [d2], and any exception raised on [d1] or [d2] is the
    result; every string it returns starts with the header
    ["DATABASE SCHEMA:\n\n"]. *)
Theorem format_schema_concat_and_header :
  (forall d1 d2,
     format_schema_for_prompt (PDict (d1 ++ d2))
     = (a <- format_schema_for_prompt (PDict d1) ;;
        b <- format_tables "" d2 ;;
        Ok (a ++ b)))
  /\ (forall schema r, format_schema_for_prompt schema = Ok r ->
        exists rest, r = format_header ++ rest).
Proof.
  split.
  - intros d1 d2; cbn [format_schema_for_prompt].
    rewrite format_tables_app.
    destruct (format_tables format_header d1) as [a|e]; simpl; [|reflexivity].
    rewrite <- (append_empty_s a) at 1; apply format_tables_acc.
  - intros [| | | | | d] r; cbn [format_schema_for_prompt];
      try (intros H; injection H as <-; exists ""; now rewrite append_empty_s).
    rewrite <- (append_empty_s format_header), format_tables_acc, append_empty_s.
    destruct (format_tables "" d) as [x|e]; simpl; intros H; [|discriminate].
    injection H as <-; now exists x.
Qed.

Lemma format_schema_concat_and_header_witness :
  format_schema_for_prompt
    (PDict ([(PStr "a", PDict [])] ++ [(PStr "b", PDict [(PStr "columns", PStr "x")])]))
  = (a <- format_schema_for_prompt (PDict [(PStr "a", PDict [])]) ;;
     b <- format_tables "" [(PStr "b", PDict [(PStr "columns", PStr "x")])] ;;
     Ok (a ++ b))
  /\ exists rest, format_header ++ "Table: t" ++ nl ++ nl = format_header ++ rest.
Proof.
  split.
  - apply (proj1 format_schema_concat_and_header).
  - apply (proj2 format_schema_concat_and_header (PDict [(PStr "t", PNone)])).
    reflexivity.
Defined.

(** X2: on any schema of the parser's shape (in particular on every
    result of [parse_sql_schema]) [format_schema_for_prompt] never raises
    and gives, after the header, one block per table in order: [Table:],
    [Columns:] with one line per column, a [Primary Key:] line only for a
    non-empty key, a [Foreign Keys:] block only when there is one, and a
    blank line. *)
Theorem format_schema_renders_parsed_schema :
  (forall sch, format_schema_for_prompt (py_of_schema sch) = Ok (rendered_schema sch))
  /\ (forall s, format_schema_for_prompt (py_of_schema (parse_sql_schema s))
                = Ok (rendered_schema (parse_sql_schema s))).
Proof.
  split; [exact format_schema_py_of_schema | intros s; apply format_schema_py_of_schema].
Qed.

(** X3: parsing a script of [CREATE TABLE] statements, one per line, with
    [\w+] table names and bodies without [");"], is the fold of
    per-statement parses into the dict; so a table defined twice keeps
    only its last definition (the columns are not merged). *)
Theorem parse_sql_schema_script :
  (forall l,
     Forall (fun tb => ident (fst tb) /\ contains (snd tb) ");" = false) l ->
     parse_sql_schema (create_script l)
     = fold_left (fun sch tb => dict_set (fst tb) (parse_table (snd tb)) sch) l [])
  /\ (forall t b1 b2,
        ident t -> contains b1 ");" = false -> contains b2 ");" = false ->
        parse_sql_schema (create_stmt t b1 ++ create_stmt t b2)
        = [(t, parse_table b2)]).
Proof.
  assert (H : forall l,
     Forall (fun tb => ident (fst tb) /\ contains (snd tb) ");" = false) l ->
     parse_sql_schema (create_script l)
     = fold_left (fun sch tb => dict_set (fst tb) (parse_table (snd tb)) sch) l []).
  { intros l Hl; unfold parse_sql_schema; rewrite finditer_create_script by exact Hl; clear Hl.
    generalize (@nil (string * table_info)); induction l as [|[t b] l IH]; intros sch;
      [reflexivity | apply IH]. }
  split; [exact H|].
  intros t b1 b2 Ht H1 H2.
  assert (E : create_stmt t b1 ++ create_stmt t b2 = create_script [(t, b1); (t, b2)])
    by (cbn [create_script]; now rewrite append_empty_s).
  rewrite E, H by (repeat (constructor; [split; assumption|]); constructor).
  cbn [fold_left fst snd dict_set]; now rewrite String.eqb_refl.
Qed.

Lemma parse_sql_schema_script_witness :
  parse_sql_schema (create_script [("a", "x INT"); ("b", "y TEXT"); ("a", "z INT")])
  = fold_left (fun sch tb => dict_set (fst tb) (parse_table (snd tb)) sch)
      [("a", "x INT"); ("b", "y TEXT"); ("a", "z INT")] []
  /\ parse_sql_schema (create_stmt "t" "a INT" ++ create_stmt "t" "b TEXT")
     = [("t", parse_table "b TEXT")].
Proof.
  split.
  - apply (proj1 parse_sql_schema_script).
    repeat (constructor; [split; [split; [discriminate | reflexivity] | reflexivity] |]); constructor.
  - apply (proj2 parse_sql_schema_script); try reflexivity.
    split; [discriminate | reflexivity].
Defined.

(** X4: the suffix the loader dispatches on is the last extension of the
    last path component ([dir/db.backup.SQL] gives [.SQL]), while a
    dotfile such as [dir/.sql] has no suffix, so the loader rejects it
    with [ValueError("Unsupported file format: ")]. *)
Theorem path_suffix_last_extension :
  (forall d b e,
     free_of "/" b = true -> free_of "/" e = true -> free_of "." e = true ->
     b <> EmptyString -> e <> EmptyString ->
     path_suffix (d ++ "/" ++ b ++ "." ++ e) = "." ++ e
     /\ path_suffix (b ++ "." ++ e) = "." ++ e)
  /\ (forall d e,
        free_of "/" e = true -> free_of "." e = true ->
        path_suffix (d ++ "/" ++ "." ++ e) = EmptyString
        /\ path_suffix ("." ++ e) = EmptyString)
  /\ (forall path_exists read_text json_load yaml_safe_load d e,
        free_of "/" e = true -> free_of "." e = true ->
        path_exists (d ++ "/" ++ "." ++ e) = true ->
        load_schema_from_file path_exists read_text json_load yaml_safe_load (d ++ "/" ++ "." ++ e)
        = (inl (ValueError "Unsupported file format: "), [CheckExists (d ++ "/" ++ "." ++ e)])).
Proof.
  assert (Hdot : forall d e, free_of "/" e = true -> free_of "." e = true ->
            path_suffix (d ++ "/" ++ "." ++ e) = EmptyString
            /\ path_suffix ("." ++ e) = EmptyString).
  { intros d e Hs He.
    assert (Hn : free_of "/" ("." ++ e) = true) by exact Hs.
    unfold path_suffix; rewrite path_name_dir, path_name_plain by exact Hn.
    split; apply suffix_of_dotfile, He. }
  split; [|split].
  - intros d b e Hb Hs He Hbn Hen.
    assert (Hn : free_of "/" (b ++ "." ++ e) = true)
      by (rewrite !free_of_app, Hb, Hs; reflexivity).
    unfold path_suffix; rewrite path_name_dir, path_name_plain by exact Hn.
    split; apply suffix_of_name; assumption.
  - exact Hdot.
  - intros path_exists read_text json_load yaml_safe_load d e Hs He Hex.
    unfold load_schema_from_file; rewrite Hex; cbn [negb].
    rewrite (proj1 (Hdot d e Hs He)); reflexivity.
Qed.

Lemma path_suffix_last_extension_witness :
  (path_suffix ("data" ++ "/" ++ "db.backup" ++ "." ++ "SQL") = "." ++ "SQL"
   /\ path_suffix ("db.backup" ++ "." ++ "SQL") = "." ++ "SQL")
  /\ (path_suffix ("home" ++ "/" ++ "." ++ "sql") = EmptyString
      /\ path_suffix ("." ++ "sql") = EmptyString)
  /\ load_schema_from_file (fun _ => true) (fun _ => inr EmptyString)
       (fun _ => inr PNone) (fun _ => inr PNone) ("home" ++ "/" ++ "." ++ "sql")
     = (inl (ValueError "Unsupported file format: "), [CheckExists ("home" ++ "/" ++ "." ++ "sql")]).
Proof.
  split; [|split].
  - apply (proj1 path_suffix_last_extension); try reflexivity; discriminate.
  - apply (proj1 (proj2 path_suffix_last_extension)); reflexivity.
  - apply (proj2 (proj2 path_suffix_last_extension)); reflexivity.
Defined.

(** X5: the schema text the two chat requests get: nothing when
    [validate_schema] rejects the schema (the truthiness test adds
    nothing), two newlines and the formatted schema otherwise; for a
    parsed schema this is empty exactly when no table was found. *)
Theorem schema_context_spec :
  (forall schema, validate_schema schema = false -> schema_context schema = Ok "")
  /\ (forall schema, validate_schema schema = true ->
        schema_context schema = (f <- format_schema_for_prompt schema ;; Ok (nl ++ nl ++ f)))
  /\ (forall sch,
        schema_context (py_of_schema sch)
        = Ok (match sch with [] => "" | _ => nl ++ nl ++ rendered_schema sch end)).
Proof.
  split; [|split].
  - intros v H; unfold schema_context; now rewrite truthy_validate, H.
  - intros v H; unfold schema_context; now rewrite truthy_validate, H.
  - intros sch; unfold schema_context; rewrite truthy_validate.
    rewrite format_schema_py_of_schema.
    destruct sch as [|[n ti] sch]; reflexivity.
Qed.

Lemma schema_context_spec_witness :
  schema_context (PList [PStr "t"]) = Ok ""
  /\ schema_context (PDict [(PStr "t", PNone)])
     = (f <- format_schema_for_prompt (PDict [(PStr "t", PNone)]) ;; Ok (nl ++ nl ++ f)).
Proof.
  split.
  - apply (proj1 schema_context_spec); reflexivity.
  - apply (proj1 (proj2 schema_context_spec)); reflexivity.
Defined.

(** X6: in [pipeline_generate_sql] a non-empty [schema_file_path] takes
    precedence over the [schema] argument: a loader error propagates as
    it is, with no chat request, and a loaded value replaces the argument
    for both requests; an empty path is the same as no path. *)
Theorem pipeline_generate_sql_schema_source :
  forall path_exists read_text json_load yaml_safe_load chat original_prompt schema,
    (forall p e evs, p <> "" ->
       load_schema_from_file path_exists read_text json_load yaml_safe_load p = (inl e, evs) ->
       pipeline_generate_sql path_exists read_text json_load yaml_safe_load chat
         original_prompt schema (Some p) = (inl (LoadFailed e), map LoadStep evs))
    /\ (forall p v evs, p <> "" ->
          load_schema_from_file path_exists read_text json_load yaml_safe_load p = (inr v, evs) ->
          pipeline_generate_sql path_exists read_text json_load yaml_safe_load chat
            original_prompt schema (Some p)
          = (fst (pipeline_generate_sql path_exists read_text json_load yaml_safe_load chat
                    original_prompt v None),
             (map LoadStep evs
              ++ snd (pipeline_generate_sql path_exists read_text json_load yaml_safe_load chat
                        original_prompt v None))%list))
    /\ pipeline_generate_sql path_exists read_text json_load yaml_safe_load chat
         original_prompt schema (Some "")
       = pipeline_generate_sql path_exists read_text json_load yaml_safe_load chat
           original_prompt schema None.
Proof.
  intros pe rt jl yl chat prompt schema; split; [|split].
  - intros p e evs Hp Hl; unfold pipeline_generate_sql.
    apply String.eqb_neq in Hp; rewrite Hp, Hl; reflexivity.
  - intros p v evs Hp Hl; unfold pipeline_generate_sql.
    apply String.eqb_neq in Hp; rewrite Hp, Hl; cbn [app].
    destruct (improve_prompt chat prompt v) as [[e|improved] t1]; [reflexivity|].
    destruct (generate_sql_from_prompt chat improved v) as [r2 t2]; reflexivity.
  - reflexivity.
Qed.

Lemma pipeline_generate_sql_schema_source_witness :
  pipeline_generate_sql (fun _ => false) (fun _ => inr "") (fun _ => inr PNone)
    (fun _ => inr PNone) (fun _ u => Some u) "q" PNone (Some "s.json")
  = (inl (LoadFailed (FileNotFoundError ("Schema file not found: " ++ "s.json"))),
     map LoadStep [CheckExists "s.json"])
  /\ pipeline_generate_sql (fun _ => true) (fun _ => inr "{}")
       (fun _ => inr (PDict [(PStr "t", PNone)])) (fun _ => inr PNone)
       (fun _ u => Some u) "q" PNone (Some "s.json")
     = (fst (pipeline_generate_sql (fun _ => true) (fun _ => inr "{}")
               (fun _ => inr (PDict [(PStr "t", PNone)])) (fun _ => inr PNone)
               (fun _ u => Some u) "q" (PDict [(PStr "t", PNone)]) None),
        (map LoadStep [CheckExists "s.json"; OpenRead "s.json"; JsonDecode]
         ++ snd (pipeline_generate_sql (fun _ => true) (fun _ => inr "{}")
                   (fun _ => inr (PDict [(PStr "t", PNone)])) (fun _ => inr PNone)
                   (fun _ u => Some u) "q" (PDict [(PStr "t", PNone)]) None))%list).
Proof.
  split.
  - apply (proj1 (pipeline_generate_sql_schema_source (fun _ => false) (fun _ => inr "")
      (fun _ => inr PNone) (fun _ => inr PNone) (fun _ u => Some u) "q" PNone));
      [discriminate | reflexivity].
  - apply (proj1 (proj2 (pipeline_generate_sql_schema_source (fun _ => true) (fun _ => inr "{}")
      (fun _ => inr (PDict [(PStr "t", PNone)])) (fun _ => inr PNone) (fun _ u => Some u)
      "q" PNone))); [discriminate | reflexivity].
Defined.

(** X7: [pipeline_generate_sql] makes at most two chat requests, in
    order: none when formatting the schema raises (then
    [RuntimeError("Erro ao melhorar prompt.")]); only the rewriting
    request when it fails; otherwise the SQL request, whose user message
    is the stripped rewritten question and whose system message carries
    the same schema text; the answer is its stripped content or
    [RuntimeError("Erro ao gerar SQL.")]. *)
Theorem pipeline_generate_sql_calls :
  forall path_exists read_text json_load yaml_safe_load chat original_prompt schema,
    (forall e, schema_context schema = Raise e ->
       pipeline_generate_sql path_exists read_text json_load yaml_safe_load chat
         original_prompt schema None
       = (inl (RuntimeError "Erro ao melhorar prompt."), []))
    /\ (forall ctx, schema_context schema = Ok ctx ->
          chat (improve_system_message ++ ctx) original_prompt = None ->
          pipeline_generate_sql path_exists read_text json_load yaml_safe_load chat
            original_prompt schema None
          = (inl (RuntimeError "Erro ao melhorar prompt."),
             [ChatCompletion (improve_system_message ++ ctx) original_prompt]))
    /\ (forall ctx content, schema_context schema = Ok ctx ->
          chat (improve_system_message ++ ctx) original_prompt = Some content ->
          pipeline_generate_sql path_exists read_text json_load yaml_safe_load chat
            original_prompt schema None
          = (match chat (generate_system_message ++ ctx) (py_strip content) with
             | Some sql => inr (py_strip sql)
             | None => inl (RuntimeError "Erro ao gerar SQL.")
             end,
             [ChatCompletion (improve_system_message ++ ctx) original_prompt;
              ChatCompletion (generate_system_message ++ ctx) (py_strip content)])).
Proof.
  intros pe rt jl yl chat prompt schema.
  assert (Hsys : forall base ctx : string,
            (if String.eqb ctx "" then base else base ++ ctx) = base ++ ctx).
  { intros base ctx; destruct (String.eqb_spec ctx "") as [->|_];
      [now rewrite append_empty_s | reflexivity]. }
  split; [|split].
  - intros e He; unfold pipeline_generate_sql, improve_prompt; now rewrite He.
  - intros ctx Hc Hchat; unfold pipeline_generate_sql, improve_prompt.
    rewrite Hc; cbv zeta; rewrite Hsys, Hchat; reflexivity.
  - intros ctx content Hc Hchat; unfold pipeline_generate_sql, improve_prompt.
    rewrite Hc; cbv zeta; rewrite Hsys, Hchat.
    unfold generate_sql_from_prompt; rewrite Hc; cbv zeta; rewrite Hsys; reflexivity.
Qed.

Lemma pipeline_generate_sql_calls_witness :
  pipeline_generate_sql (fun _ => false) (fun _ => inr "") (fun _ => inr PNone)
    (fun _ => inr PNone) (fun _ u => Some (" " ++ u ++ " ")) "q" PNone None
  = (match (fun _ u => Some (" " ++ u ++ " ")) (generate_system_message ++ "")
             (py_strip " q ") with
     | Some sql => inr (py_strip sql)
     | None => inl (RuntimeError "Erro ao gerar SQL.")
     end,
     [ChatCompletion (improve_system_message ++ "") "q";
      ChatCompletion (generate_system_message ++ "") (py_strip " q ")]).
Proof.
  apply (proj2 (proj2 (pipeline_generate_sql_calls (fun _ => false) (fun _ => inr "")
           (fun _ => inr PNone) (fun _ => inr PNone) (fun _ u => Some (" " ++ u ++ " "))
           "q" PNone))); reflexivity.
Defined.

(** X8: every table name, primary key and foreign key part recorded by
    [parse_sql_schema] is a non-empty [\w+] identifier (a foreign key reads
    [x -> y.z]); every column name is non-empty with no whitespace and no
    comma, and every column type is non-empty with no comma (so a type
    such as [DECIMAL(10,2)] is never recorded whole). *)
Theorem parse_sql_schema_captured_shapes (s : string) :
  Forall (fun tti => ident (fst tti) /\ table_shape (snd tti)) (parse_sql_schema s).
Proof.
  unfold parse_sql_schema.
  assert (Hf : Forall (fun gs => exists s' r, match_here create_table_pattern s' = Some (gs, r))
                 (finditer create_table_pattern s)).
  { apply Forall_forall; intros gs Hin; exact (finditer_from_match_in _ _ _ _ Hin). }
  revert Hf; generalize (finditer create_table_pattern s).
  assert (H0 : Forall (fun tti => ident (fst tti) /\ table_shape (snd tti))
                 (@nil (string * table_info))) by constructor.
  revert H0; generalize (@nil (string * table_info)).
  intros sch Hsch l; revert sch Hsch; induction l as [|gs l IH]; intros sch Hsch Hl;
    [exact Hsch|].
  inversion Hl as [|? ? [s' [r Hm]] Hl']; subst; cbn [fold_left]; apply IH; [|exact Hl'].
  destruct gs as [|name [|body rest]]; try exact Hsch.
  apply match_here_groups in Hm.
  change (filter it_group create_table_pattern) with [word_group; any_lazy_group] in Hm.
  inversion Hm as [|? ? ? ? Hn _]; subst.
  apply Forall_forall; intros [k ti] Hin.
  apply dict_set_in_kv in Hin as [Hin|[-> ->]].
  - exact (proj1 (Forall_forall _ _) Hsch _ Hin).
  - split; [now apply group_word_ident | apply table_shape_parse_table].
Qed.

(** X9: without the two characters [");"] in its input, [parse_sql_schema]
    finds no table: a statement missing its semicolon, or with a space
    before it, is ignored. *)
Theorem parse_sql_schema_requires_close (s : string) :
  contains s ");" = false -> parse_sql_schema s = [].
Proof.
  intros Hs; unfold parse_sql_schema, finditer.
  change create_table_pattern with
    ((lits "CREATE" ++ [ws_plus] ++ lits "TABLE" ++ [ws_plus; word_group; ws_star]
      ++ lits "(" ++ [any_lazy_group]) ++ lits ");")%list.
  rewrite finditer_from_no_close by exact Hs; reflexivity.
Qed.

Lemma parse_sql_schema_requires_close_witness :
  contains "CREATE TABLE users (id INT, name TEXT) ;" ");" = false
  /\ parse_sql_schema "CREATE TABLE users (id INT, name TEXT) ;" = [].
Proof.
  split; [reflexivity|].
  apply parse_sql_schema_requires_close; reflexivity.
Defined.

(** X10: for an existing file with a supported suffix (any letter case),
    a read error surfaces as is after the open; a [.sql] file is parsed
    by [parse_sql_schema]; a JSON or YAML file's decoded value is returned
    without any check of its structure, a decoding error as is. *)
Theorem load_schema_from_file_dispatch :
  forall path_exists read_text json_load yaml_safe_load p,
    path_exists p = true ->
    (forall e, read_text p = inl e ->
       In (py_lower (path_suffix p)) [".json"; ".yaml"; ".yml"; ".sql"] ->
       load_schema_from_file path_exists read_text json_load yaml_safe_load p
       = (inl (ReadError e), [CheckExists p; OpenRead p]))
    /\ (forall txt, read_text p = inr txt ->
          py_lower (path_suffix p) = ".sql" ->
          load_schema_from_file path_exists read_text json_load yaml_safe_load p
          = (inr (py_of_schema (parse_sql_schema txt)), [CheckExists p; OpenRead p; SqlParse]))
    /\ (forall txt, read_text p = inr txt ->
          py_lower (path_suffix p) = ".json" ->
          load_schema_from_file path_exists read_text json_load yaml_safe_load p
          = (match json_load txt with inl e => inl (DecodeError e) | inr v => inr v end,
             [CheckExists p; OpenRead p; JsonDecode]))
    /\ (forall txt, read_text p = inr txt ->
          In (py_lower (path_suffix p)) [".yaml"; ".yml"] ->
          load_schema_from_file path_exists read_text json_load yaml_safe_load p
          = (match yaml_safe_load txt with inl e => inl (DecodeError e) | inr v => inr v end,
             [CheckExists p; OpenRead p; YamlDecode])).
Proof.
  intros pe rt jl yl p Hp; unfold load_schema_from_file, read_and; rewrite Hp; cbn [negb].
  split; [|split; [|split]].
  - intros e He Hs; rewrite He.
    destruct Hs as [E|[E|[E|[E|[]]]]]; rewrite <- E; reflexivity.
  - intros txt Ht Hs; rewrite Ht, Hs; reflexivity.
  - intros txt Ht Hs; rewrite Ht, Hs; reflexivity.
  - intros txt Ht Hs; rewrite Ht.
    destruct Hs as [E|[E|[]]]; rewrite <- E; reflexivity.
Qed.

Lemma load_schema_from_file_dispatch_witness :
  load_schema_from_file (fun _ => true) (fun _ => inr "CREATE TABLE t (a INT);")
    (fun _ => inr PNone) (fun _ => inr PNone) "db/Schema.SQL"
  = (inr (py_of_schema (parse_sql_schema "CREATE TABLE t (a INT);")),
     [CheckExists "db/Schema.SQL"; OpenRead "db/Schema.SQL"; SqlParse]).
Proof.
  apply (proj1 (proj2 (load_schema_from_file_dispatch (fun _ => true)
    (fun _ => inr "CREATE TABLE t (a INT);") (fun _ => inr PNone) (fun _ => inr PNone)
    "db/Schema.SQL" eq_refl))); reflexivity.
Defined.
